(** * tube-recipe: the recipe pipeline of [main.py]

    A shallow embedding of the script: the pydantic models with their
    validation and serialisation, the three fetchers and [main] written in a
    small monad of external calls, prints and exceptions, and the properties
    of the pipeline proved on it. *)

From Stdlib Require Import List NArith ZArith QArith Bool String Ascii.
Import ListNotations.

Set Implicit Arguments.
Set Warnings "-register-all".

(** ** Python text

    A Python [str] is the sequence of its code points.  Text that has no
    UTF-8 encoding (a lone surrogate) is outside this model. *)

Definition str : Type := list N.

(** An ASCII literal of the source, byte for byte. *)
Definition lit (s : string) : str := map N_of_ascii (list_ascii_of_string s).

(** The double quote and the line feed, which literals here do not spell. *)
Definition dq : str := [34%N].
Definition nl : str := [10%N].

(** [a == b]. *)
Fixpoint str_eqb (a b : str) : bool :=
  match a, b with
  | [], [] => true
  | x :: a', y :: b' => (x =? y)%N && str_eqb a' b'
  | _, _ => false
  end.

(** [str.isspace] on one code point (CPython's [_PyUnicode_IsWhitespace]). *)
Definition isspace (c : N) : bool :=
  ((9 <=? c) && (c <=? 13) || (28 <=? c) && (c <=? 32)
   || (c =? 133) || (c =? 160) || (c =? 5760)
   || (8192 <=? c) && (c <=? 8202)
   || (c =? 8232) || (c =? 8233) || (c =? 8239) || (c =? 8287)
   || (c =? 12288))%N.

(** [s.lstrip()], [s.rstrip()] and [s.strip()] with no argument. *)
Fixpoint lstrip (s : str) : str :=
  match s with
  | c :: s' => if isspace c then lstrip s' else s
  | [] => []
  end.

Definition rstrip (s : str) : str := rev (lstrip (rev s)).

Definition strip (s : str) : str := rstrip (lstrip s).

(** [s.split(sep)] for a one-character separator: the pieces between the
    separators, empty pieces kept, so the result is never empty. *)
Fixpoint split (sep : N) (s : str) : list str :=
  match s with
  | [] => [[]]
  | c :: s' =>
      if (c =? sep)%N then [] :: split sep s'
      else match split sep s' with
           | piece :: pieces => (c :: piece) :: pieces
           | [] => [[c]]
           end
  end.

(** [sep.join(parts)]. *)
Fixpoint join (sep : str) (parts : list str) : str :=
  match parts with
  | [] => []
  | [p] => p
  | p :: rest => p ++ sep ++ join sep rest
  end.

(** Substring test, [pat in s]. *)
Fixpoint startswith (pat s : str) : bool :=
  match pat, s with
  | [], _ => true
  | p :: pat', c :: s' => (p =? c)%N && startswith pat' s'
  | _ :: _, [] => false
  end.

Fixpoint contains (pat s : str) : bool :=
  startswith pat s ||
  match s with
  | [] => false
  | _ :: s' => contains pat s'
  end.

(** ** Python values

    The values that cross the boundaries of the script: the info dict of
    yt-dlp, the keyword arguments of a model constructor, the output of
    [model_dump], the JSON object answered by the language model.  A dict
    keeps its insertion order. *)

Inductive pyval : Type :=
| PNone
| PBool (b : bool)
| PInt (z : Z)
| PStr (s : str)
| PList (l : list pyval)
| PDict (d : list (str * pyval)).

Definition dict : Type := list (str * pyval).

(** [d.get(k)], with [None] of Rocq for a missing key. *)
Fixpoint get (d : dict) (k : str) : option pyval :=
  match d with
  | [] => None
  | (k', v) :: d' => if str_eqb k' k then Some v else get d' k
  end.

(** Truth value of a Python object. *)
Definition truthy (v : pyval) : bool :=
  match v with
  | PNone => false
  | PBool b => b
  | PInt z => negb (z =? 0)%Z
  | PStr s => match s with [] => false | _ => true end
  | PList l => match l with [] => false | _ => true end
  | PDict d => match d with [] => false | _ => true end
  end.

(** [d.get(k) or default]: a missing key reads as Python's [None]. *)
Definition get_or (d : dict) (k : str) (default : pyval) : pyval :=
  match get d k with
  | Some v => if truthy v then v else default
  | None => default
  end.

(** ** Validation helpers of pydantic

    A validator answers [None] where pydantic raises [ValidationError].
    Fields are looked up under their alias when they have one (the models
    declare no [populate_by_name]), keys that name no field are ignored, and
    a [str] field takes a [str] only. *)

Notation "'let?' x ':=' a 'in' b" :=
  (match a with Some x => b | None => None end)
  (at level 10, x name, a at level 100, b at level 200).

Definition as_str (v : pyval) : option str :=
  match v with
  | PStr s => Some s
  | _ => None
  end.

Fixpoint traverse {A B : Type} (f : A -> option B) (l : list A)
  : option (list B) :=
  match l with
  | [] => Some []
  | a :: l' =>
      let? b := f a in
      let? bs := traverse f l' in
      Some (b :: bs)
  end.

Definition as_list {A : Type} (f : pyval -> option A) (v : pyval)
  : option (list A) :=
  match v with
  | PList l => traverse f l
  | _ => None
  end.

(** A field with no default. *)
Definition required {A : Type} (f : pyval -> option A) (d : dict) (k : str)
  : option A :=
  match get d k with
  | Some v => f v
  | None => None
  end.

(** A field of type [Literal[value]] with [default=value]. *)
Definition literal (value : str) (d : dict) (k : str) : option str :=
  match get d k with
  | Some (PStr s) => if str_eqb s value then Some s else None
  | Some _ => None
  | None => Some value
  end.

(** ** JSON text as pydantic writes it

    [model_dump_json] gives compact JSON: no blank after [:] or [,], the
    fields in declaration order, text escaped as little as JSON asks. *)

Definition hexdigit (n : N) : N :=
  if (n <? 10)%N then (48 + n)%N else (87 + n)%N.

Definition json_escape_char (c : N) : str :=
  if (c =? 34)%N then [92; 34]%N
  else if (c =? 92)%N then [92; 92]%N
  else if (c =? 8)%N then [92; 98]%N
  else if (c =? 9)%N then [92; 116]%N
  else if (c =? 10)%N then [92; 110]%N
  else if (c =? 12)%N then [92; 102]%N
  else if (c =? 13)%N then [92; 114]%N
  else if (c <? 32)%N
       then [92; 117; 48; 48; hexdigit (c / 16); hexdigit (c mod 16)]%N
  else [c].

Definition json_str (s : str) : str :=
  dq ++ flat_map json_escape_char s ++ dq.

Definition json_list {A : Type} (f : A -> str) (l : list A) : str :=
  lit "[" ++ join (lit ",") (map f l) ++ lit "]".

Definition json_member (k : str) (v : str) : str :=
  json_str k ++ lit ":" ++ v.

Definition json_object (members : list str) : str :=
  lit "{" ++ join (lit ",") members ++ lit "}".

(** ** The models *)

Module VideoInfo.

Record t : Type := { title : str; author : str; thumbnail_url : str }.

(** The constructor, on its keyword arguments. *)
Definition validate (d : dict) : option t :=
  let? title := required as_str d (lit "title") in
  let? author := required as_str d (lit "author") in
  let? thumbnail_url := required as_str d (lit "thumbnail_url") in
  Some {| title := title; author := author;
          thumbnail_url := thumbnail_url |}.

End VideoInfo.

Module HowToStep.

Record t : Type := { type : str; text : str }.

Definition well_typed (s : t) : bool := str_eqb (type s) (lit "HowToStep").

Definition validate (v : pyval) : option t :=
  match v with
  | PDict d =>
      let? type := literal (lit "HowToStep") d (lit "@type") in
      let? text := required as_str d (lit "text") in
      Some {| type := type; text := text |}
  | _ => None
  end.

Definition model_dump (s : t) : dict :=
  [(lit "type", PStr (type s)); (lit "text", PStr (text s))].

Definition model_dump_json (s : t) : str :=
  json_object [json_member (lit "@type") (json_str (type s));
               json_member (lit "text") (json_str (text s))].

End HowToStep.

Module HowToSection.

Record t : Type :=
  { type : str; name : str; itemListElement : list HowToStep.t }.

Definition well_typed (s : t) : bool :=
  str_eqb (type s) (lit "HowToSection")
  && forallb HowToStep.well_typed (itemListElement s).

Definition validate (v : pyval) : option t :=
  match v with
  | PDict d =>
      let? type := literal (lit "HowToSection") d (lit "@type") in
      let? name := required as_str d (lit "name") in
      let? items :=
        required (as_list HowToStep.validate) d (lit "itemListElement") in
      Some {| type := type; name := name; itemListElement := items |}
  | _ => None
  end.

Definition model_dump (s : t) : dict :=
  [(lit "type", PStr (type s));
   (lit "name", PStr (name s));
   (lit "itemListElement",
    PList (map (fun i => PDict (HowToStep.model_dump i))
             (itemListElement s)))].

Definition model_dump_json (s : t) : str :=
  json_object
    [json_member (lit "@type") (json_str (type s));
     json_member (lit "name") (json_str (name s));
     json_member (lit "itemListElement")
       (json_list HowToStep.model_dump_json (itemListElement s))].

End HowToSection.

(** An element of [recipeInstructions], of type
    [HowToStep | HowToSection]. *)
Inductive howto : Type :=
| Step (s : HowToStep.t)
| Section_ (s : HowToSection.t).

Module HowTo.

Definition well_typed (i : howto) : bool :=
  match i with
  | Step s => HowToStep.well_typed s
  | Section_ s => HowToSection.well_typed s
  end.

(** The union in pydantic's smart mode: the member that validates; when
    both do (a dict with no [@type] that carries [text], [name] and
    [itemListElement]) the one that sets more fields, the section. *)
Definition validate (v : pyval) : option howto :=
  match HowToStep.validate v, HowToSection.validate v with
  | _, Some c => Some (Section_ c)
  | Some s, None => Some (Step s)
  | None, None => None
  end.

Definition model_dump (i : howto) : dict :=
  match i with
  | Step s => HowToStep.model_dump s
  | Section_ s => HowToSection.model_dump s
  end.

Definition model_dump_json (i : howto) : str :=
  match i with
  | Step s => HowToStep.model_dump_json s
  | Section_ s => HowToSection.model_dump_json s
  end.

End HowTo.

Module BaseRecipe.

Record t : Type :=
  { context : str;
    type : str;
    name : str;
    cookTime : str;
    description : str;
    keywords : str;
    prepTime : str;
    recipeCategory : str;
    recipeCuisine : str;
    recipeIngredient : list str;
    recipeInstructions : list howto }.

(** What the annotations [Literal[...]] ask of an instance. *)
Definition well_typed (b : t) : bool :=
  str_eqb (context b) (lit "https://schema.org")
  && str_eqb (type b) (lit "Recipe")
  && forallb HowTo.well_typed (recipeInstructions b).

(** Validation of a value against the model, as [text_format=BaseRecipe]
    asks of the answer of the language model. *)
Definition validate (v : pyval) : option t :=
  match v with
  | PDict d =>
      let? context := literal (lit "https://schema.org") d (lit "@context") in
      let? type := literal (lit "Recipe") d (lit "@type") in
      let? name := required as_str d (lit "name") in
      let? cookTime := required as_str d (lit "cookTime") in
      let? description := required as_str d (lit "description") in
      let? keywords := required as_str d (lit "keywords") in
      let? prepTime := required as_str d (lit "prepTime") in
      let? recipeCategory := required as_str d (lit "recipeCategory") in
      let? recipeCuisine := required as_str d (lit "recipeCuisine") in
      let? recipeIngredient :=
        required (as_list as_str) d (lit "recipeIngredient") in
      let? recipeInstructions :=
        required (as_list HowTo.validate) d (lit "recipeInstructions") in
      Some {| context := context; type := type; name := name;
              cookTime := cookTime; description := description;
              keywords := keywords; prepTime := prepTime;
              recipeCategory := recipeCategory;
              recipeCuisine := recipeCuisine;
              recipeIngredient := recipeIngredient;
              recipeInstructions := recipeInstructions |}
  | _ => None
  end.

(** [model_dump()]: keyed by field name, not by alias. *)
Definition model_dump (b : t) : dict :=
  [(lit "context", PStr (context b));
   (lit "type", PStr (type b));
   (lit "name", PStr (name b));
   (lit "cookTime", PStr (cookTime b));
   (lit "description", PStr (description b));
   (lit "keywords", PStr (keywords b));
   (lit "prepTime", PStr (prepTime b));
   (lit "recipeCategory", PStr (recipeCategory b));
   (lit "recipeCuisine", PStr (recipeCuisine b));
   (lit "recipeIngredient", PList (map PStr (recipeIngredient b)));
   (lit "recipeInstructions",
    PList (map (fun i => PDict (HowTo.model_dump i))
             (recipeInstructions b)))].

End BaseRecipe.

Module Recipe.

(** [class Recipe(BaseRecipe)]: the inherited fields, then its own. *)
Record t : Type :=
  { context : str;
    type : str;
    name : str;
    cookTime : str;
    description : str;
    keywords : str;
    prepTime : str;
    recipeCategory : str;
    recipeCuisine : str;
    recipeIngredient : list str;
    recipeInstructions : list howto;
    image : str;
    author : str }.

(** The constructor, on its keyword arguments. *)
Definition validate (d : dict) : option t :=
  let? context := literal (lit "https://schema.org") d (lit "@context") in
  let? type := literal (lit "Recipe") d (lit "@type") in
  let? name := required as_str d (lit "name") in
  let? cookTime := required as_str d (lit "cookTime") in
  let? description := required as_str d (lit "description") in
  let? keywords := required as_str d (lit "keywords") in
  let? prepTime := required as_str d (lit "prepTime") in
  let? recipeCategory := required as_str d (lit "recipeCategory") in
  let? recipeCuisine := required as_str d (lit "recipeCuisine") in
  let? recipeIngredient :=
    required (as_list as_str) d (lit "recipeIngredient") in
  let? recipeInstructions :=
    required (as_list HowTo.validate) d (lit "recipeInstructions") in
  let? image := required as_str d (lit "image") in
  let? author := required as_str d (lit "author") in
  Some {| context := context; type := type; name := name;
          cookTime := cookTime; description := description;
          keywords := keywords; prepTime := prepTime;
          recipeCategory := recipeCategory;
          recipeCuisine := recipeCuisine;
          recipeIngredient := recipeIngredient;
          recipeInstructions := recipeInstructions;
          image := image; author := author |}.

(** The keyword arguments [from_base_recipe] hands to the constructor. *)
Definition from_base_recipe_kwargs (base_recipe : BaseRecipe.t)
    (video_info : VideoInfo.t) : dict :=
  BaseRecipe.model_dump base_recipe
  ++ [(lit "image", PStr (VideoInfo.thumbnail_url video_info));
      (lit "author", PStr (VideoInfo.author video_info))].

(** [Recipe.from_base_recipe]; [None] where the constructor raises. *)
Definition from_base_recipe (base_recipe : BaseRecipe.t)
    (video_info : VideoInfo.t) : option t :=
  validate (from_base_recipe_kwargs base_recipe video_info).

(** [model_dump_json(by_alias=True)]. *)
Definition model_dump_json (r : t) : str :=
  json_object
    [json_member (lit "@context") (json_str (context r));
     json_member (lit "@type") (json_str (type r));
     json_member (lit "name") (json_str (name r));
     json_member (lit "cookTime") (json_str (cookTime r));
     json_member (lit "description") (json_str (description r));
     json_member (lit "keywords") (json_str (keywords r));
     json_member (lit "prepTime") (json_str (prepTime r));
     json_member (lit "recipeCategory") (json_str (recipeCategory r));
     json_member (lit "recipeCuisine") (json_str (recipeCuisine r));
     json_member (lit "recipeIngredient")
       (json_list json_str (recipeIngredient r));
     json_member (lit "recipeInstructions")
       (json_list HowTo.model_dump_json (recipeInstructions r));
     json_member (lit "image") (json_str (image r));
     json_member (lit "author") (json_str (author r))].

End Recipe.

Module Settings.

Record t : Type :=
  { openai_base_url : str;
    openai_api_key : str;
    openai_model : str;
    video_id : str;
    preferred_languages : str }.

(** The field defaults of the class. *)
Definition default : t :=
  {| openai_base_url := [];
     openai_api_key := [];
     openai_model := lit "gpt-4.1-mini";
     video_id := [];
     preferred_languages := lit "ko" |}.

Definition preferred_languages_list (self : t) : list str :=
  map strip (split 44 (preferred_languages self)).

End Settings.

(** ** Exceptions, external calls and prints *)

Inductive exn : Type := Exception (message : str).

(** [str(e)], as the f-strings of the handlers read it. *)
Definition str_of_exn (e : exn) : str :=
  match e with Exception message => message end.

Inductive outcome (A : Type) : Type :=
| Returns (a : A)
| Raises (e : exn).

Arguments Returns {A} a.
Arguments Raises {A} e.

Module Snippet.

(** One element of [transcript.to_raw_data()]; [start] and [duration] are
    never read. *)
Record t : Type := { text : str; start : Q; duration : Q }.

End Snippet.

(** The calls that leave the script. *)
Inductive call : Type :=
| YouTubeTranscriptApi_fetch (video_id : str) (languages : list str)
| YoutubeDL_extract_info (ydl_opts : dict) (url : str) (download : bool)
| OpenAI_responses_parse
    (base_url api_key model instructions input : str).

(** What each gives back when it does not raise: the caption entries; the
    info dict or Python's [None]; the JSON value of the model's output text,
    or nothing when the response carries no output text (output that is not
    JSON makes the call raise).  The base URL and the key of the client
    travel with the call. *)
Definition answer (c : call) : Type :=
  match c with
  | YouTubeTranscriptApi_fetch _ _ => list Snippet.t
  | YoutubeDL_extract_info _ _ _ => option dict
  | OpenAI_responses_parse _ _ _ _ _ => option pyval
  end.

(** A program: it ends, calls a service, prints, or builds the client of the
    language model, [OpenAI(base_url=..., api_key=...)], which sends nothing
    but may raise. *)
Inductive prog (A : Type) : Type :=
| Ret (a : A)
| Call (c : call) (k : outcome (answer c) -> prog A)
| Prints (s : str) (k : prog A)
| New_OpenAI (base_url api_key : str) (k : outcome unit -> prog A).

Arguments Ret {A} a.
Arguments Call {A} c k.
Arguments Prints {A} s k.
Arguments New_OpenAI {A} base_url api_key k.

(** A computation that returns or raises. *)
Definition M (A : Type) : Type := prog (outcome A).

Definition ret {A : Type} (a : A) : M A := Ret (Returns a).

Definition raise {A : Type} (e : exn) : M A := Ret (Raises e).

Fixpoint bind {A B : Type} (m : M A) (f : A -> M B) : M B :=
  match m with
  | Ret (Returns a) => f a
  | Ret (Raises e) => Ret (Raises e)
  | Call c k => Call c (fun r => bind (k r) f)
  | Prints s k => Prints s (bind k f)
  | New_OpenAI b a k => New_OpenAI b a (fun r => bind (k r) f)
  end.

(** [try: m  except Exception as e: handler e]. *)
Fixpoint try_except {A : Type} (m : M A) (handler : exn -> M A) : M A :=
  match m with
  | Ret (Returns a) => Ret (Returns a)
  | Ret (Raises e) => handler e
  | Call c k => Call c (fun r => try_except (k r) handler)
  | Prints s k => Prints s (try_except k handler)
  | New_OpenAI b a k => New_OpenAI b a (fun r => try_except (k r) handler)
  end.

Definition perform (c : call) : M (answer c) := Call c (fun r => Ret r).

Definition print (s : str) : M unit := Prints s (ret tt).

Definition OpenAI (base_url api_key : str) : M unit :=
  New_OpenAI base_url api_key (fun r => Ret r).

Notation "x <- m ;; k" := (bind m (fun x => k))
  (at level 61, m at next level, right associativity).
Notation "m ;; k" := (bind m (fun _ => k))
  (at level 61, right associativity).

(** The outside world answers every call, and says whether the client of the
    language model can be built from a base URL and a key (the constructor
    also looks at the environment); a run records what was called, printed
    and built, in order. *)
Record world : Type :=
  { answers :> forall c : call, outcome (answer c);
    OpenAI_init : str -> str -> outcome unit }.

Inductive event : Type :=
| Called (c : call)
| Printed (s : str)
| Constructed (base_url api_key : str).

Fixpoint run {A : Type} (w : world) (p : prog A) : list event * A :=
  match p with
  | Ret a => ([], a)
  | Call c k => let (tr, a) := run w (k (w c)) in (Called c :: tr, a)
  | Prints s k => let (tr, a) := run w k in (Printed s :: tr, a)
  | New_OpenAI b a k =>
      let (tr, x) := run w (k (OpenAI_init w b a)) in
      (Constructed b a :: tr, x)
  end.

Definition trace {A : Type} (w : world) (p : prog A) : list event :=
  fst (run w p).

Definition result {A : Type} (w : world) (p : prog A) : A :=
  snd (run w p).

(** ** The script *)

Section Pipeline.

(** The exception pydantic raises when a value fails the named model. *)
Variable ValidationError : str -> pyval -> exn.

(** The module-level [settings = Settings()]. *)
Variable settings : Settings.t.

Definition get_video_info (video_id : str) : M (option VideoInfo.t) :=
  try_except
    (let ydl_opts :=
       [(lit "quiet", PBool true); (lit "no_warnings", PBool true)] in
     info <- perform (YoutubeDL_extract_info ydl_opts
                        (lit "https://www.youtube.com/watch?v=" ++ video_id)
                        false) ;;
     match info with
     | None => ret None
     | Some info =>
         let kwargs :=
           [(lit "title", get_or info (lit "title") (PStr []));
            (lit "author", get_or info (lit "uploader") (PStr []));
            (lit "thumbnail_url", get_or info (lit "thumbnail") (PStr []))] in
         match VideoInfo.validate kwargs with
         | Some video_info => ret (Some video_info)
         | None => raise (ValidationError (lit "VideoInfo") (PDict kwargs))
         end
     end)
    (fun e =>
       print (lit "Error fetching video info: " ++ str_of_exn e) ;;
       ret None).

Definition get_transcript (video_id : str) : M (option str) :=
  fetched <-
    try_except
      (transcript <-
         perform (YouTubeTranscriptApi_fetch video_id
                    (Settings.preferred_languages_list settings
                     ++ [lit "en"])) ;;
       ret (Some transcript))
      (fun e =>
         print (lit "Error fetching transcript: " ++ str_of_exn e) ;;
         ret None) ;;
  match fetched with
  | None => ret None
  | Some transcript =>
      let transcript_text :=
        join (lit " ") (map Snippet.text transcript) in
      ret (Some transcript_text)
  end.

Definition instruction : str :=
  nl ++ lit "    You are a professional recipe extraction assistant. Extract a cooking recipe from the given YouTube video title and transcript, then convert it into structured JSON-LD format."
  ++ nl
  ++ nl ++ lit "    Follow these specific guidelines:"
  ++ nl
  ++ nl ++ lit "    1. **name**: Extract the exact dish name from the title or transcript"
  ++ nl ++ lit "    2. **description**: Write a 2-3 sentence description of the dish and its characteristics"
  ++ nl ++ lit "    3. **keywords**: Create relevant keywords separated by commas (cuisine type, cooking method, difficulty, main ingredients)"
  ++ nl ++ lit "    4. **recipeCategory**: Choose from: " ++ dq ++ lit "appetizer" ++ dq ++ lit ", " ++ dq ++ lit "main course" ++ dq ++ lit ", " ++ dq ++ lit "side dish" ++ dq ++ lit ", " ++ dq ++ lit "dessert" ++ dq ++ lit ", " ++ dq ++ lit "beverage" ++ dq ++ lit ", " ++ dq ++ lit "snack" ++ dq
  ++ nl ++ lit "    5. **recipeCuisine**: Specify cuisine type (e.g., " ++ dq ++ lit "Korean" ++ dq ++ lit ", " ++ dq ++ lit "Italian" ++ dq ++ lit ", " ++ dq ++ lit "Chinese" ++ dq ++ lit ", " ++ dq ++ lit "American" ++ dq ++ lit ", " ++ dq ++ lit "Japanese" ++ dq ++ lit ")"
  ++ nl ++ lit "    6. **recipeIngredient**: List all ingredients with exact quantities and units as mentioned in the video"
  ++ nl ++ lit "    7. **cookTime**: Estimate total cooking time in ISO 8601 duration format (e.g., " ++ dq ++ lit "PT30M" ++ dq ++ lit " for 30 minutes)"
  ++ nl ++ lit "    8. **prepTime**: Estimate preparation time in ISO 8601 duration format"
  ++ nl ++ lit "    9. **recipeInstructions**: Break down cooking steps comprehensively:"
  ++ nl ++ lit "       - Use HowToStep for individual cooking actions, techniques, and specific instructions"
  ++ nl ++ lit "       - Use HowToSection to group related steps (e.g., " ++ dq ++ lit "Preparation" ++ dq ++ lit ", " ++ dq ++ lit "Cooking" ++ dq ++ lit ", " ++ dq ++ lit "Finishing" ++ dq ++ lit ")"
  ++ nl ++ lit "       - Include ALL cooking tips, tricks, and helpful advice mentioned in the video"
  ++ nl ++ lit "       - Include temperature settings, heat levels, timing cues, and visual indicators"
  ++ nl ++ lit "       - Include any alternative methods or ingredient substitutions mentioned"
  ++ nl ++ lit "       - Include storage tips, serving suggestions, and troubleshooting advice"
  ++ nl ++ lit "       - Each step should be clear, actionable, and preserve the chef's original guidance"
  ++ nl
  ++ nl ++ lit "    **Important rules:**"
  ++ nl ++ lit "    - Only extract recipe-related content, ignore unrelated video content"
  ++ nl ++ lit "    - If quantities are vague, use reasonable estimates"
  ++ nl ++ lit "    - Preserve original ingredient names and cooking terms"
  ++ nl ++ lit "    - If cooking/prep times aren't mentioned, estimate based on the recipe complexity"
  ++ nl ++ lit "    - For recipeInstructions, focus on the actual cooking process, not video commentary"
  ++ nl ++ lit "    - Capture EVERY useful tip, technique, and piece of advice that would help someone cook this dish successfully"
  ++ nl ++ lit "    - Include any warnings about common mistakes or things to avoid"
  ++ nl
  ++ nl ++ lit "    Output must be valid JSON-LD following schema.org Recipe format.    "
  ++ nl ++ lit "    ".

(** [client.responses.parse(..., text_format=BaseRecipe)] followed by
    [.output_parsed]: the call, then the validation of the output text
    against the model. *)
Definition responses_parse (model instructions input : str)
  : M (option BaseRecipe.t) :=
  output <- perform (OpenAI_responses_parse
                       (Settings.openai_base_url settings)
                       (Settings.openai_api_key settings)
                       model instructions input) ;;
  match output with
  | None => ret None
  | Some v =>
      match BaseRecipe.validate v with
      | Some parsed => ret (Some parsed)
      | None => raise (ValidationError (lit "BaseRecipe") v)
      end
  end.

(** The client is built before the [try]: what its constructor raises
    leaves [extract_recipe]. *)
Definition extract_recipe (title transcript : str)
  : M (option BaseRecipe.t) :=
  client <- OpenAI (Settings.openai_base_url settings)
              (Settings.openai_api_key settings) ;;
  try_except
    (responses_parse (Settings.openai_model settings) instruction
       (nl ++ lit "            Title: " ++ title
        ++ nl ++ lit "            Transcript: " ++ transcript
        ++ nl ++ lit "            "))
    (fun e =>
       print (lit "Error extracting recipe: " ++ str_of_exn e) ;;
       ret None).

Definition main : M unit :=
  let video_id := Settings.video_id settings in
  transcript_text <- get_transcript video_id ;;
  match transcript_text with
  | None => print (lit "Failed to retrieve transcript.")
  | Some transcript_text =>
      video_info <- get_video_info video_id ;;
      match video_info with
      | None => print (lit "Failed to retrieve video information.")
      | Some video_info =>
          base_recipe <-
            extract_recipe (VideoInfo.title video_info) transcript_text ;;
          match base_recipe with
          | None => print (lit "Failed to extract recipe")
          | Some base_recipe =>
              match Recipe.from_base_recipe base_recipe video_info with
              | Some recipe => print (Recipe.model_dump_json recipe)
              | None =>
                  raise (ValidationError (lit "Recipe")
                           (PDict (BaseRecipe.model_dump base_recipe)))
              end
          end
      end
  end.

End Pipeline.

(** ** Reading a run *)

Definition printed (tr : list event) : list str :=
  flat_map (fun e => match e with Printed s => [s] | _ => [] end) tr.

Definition is_metadata_call (e : event) : bool :=
  match e with
  | Called (YoutubeDL_extract_info _ _ _) => true
  | _ => false
  end.

Definition is_llm_call (e : event) : bool :=
  match e with
  | Called (OpenAI_responses_parse _ _ _ _ _) => true
  | _ => false
  end.

(** The three calls of a run, as the script makes them. *)
Definition transcript_call (settings : Settings.t) (video_id : str) : call :=
  YouTubeTranscriptApi_fetch video_id
    (Settings.preferred_languages_list settings ++ [lit "en"]).

Definition video_info_call (video_id : str) : call :=
  YoutubeDL_extract_info
    [(lit "quiet", PBool true); (lit "no_warnings", PBool true)]
    (lit "https://www.youtube.com/watch?v=" ++ video_id) false.

Definition recipe_call (settings : Settings.t) (title transcript : str)
  : call :=
  OpenAI_responses_parse
    (Settings.openai_base_url settings) (Settings.openai_api_key settings)
    (Settings.openai_model settings) instruction
    (nl ++ lit "            Title: " ++ title
     ++ nl ++ lit "            Transcript: " ++ transcript
     ++ nl ++ lit "            ").

(** The building of the client, as [extract_recipe] asks for it. *)
Definition client_built (settings : Settings.t) : event :=
  Constructed (Settings.openai_base_url settings)
    (Settings.openai_api_key settings).

(** The keyword arguments [get_video_info] builds from an info dict. *)
Definition video_info_kwargs (info : dict) : dict :=
  [(lit "title", get_or info (lit "title") (PStr []));
   (lit "author", get_or info (lit "uploader") (PStr []));
   (lit "thumbnail_url", get_or info (lit "thumbnail") (PStr []))].

(** The one-line messages [main] prints when it gives up. *)
Definition failure_messages : list str :=
  [lit "Failed to retrieve transcript.";
   lit "Failed to retrieve video information.";
   lit "Failed to extract recipe"].

(** A world given by its three answers, where the client can be built. *)
Definition answering (captions : outcome (list Snippet.t))
    (info : outcome (option dict)) (output : outcome (option pyval))
  : world :=
  {| answers := fun c =>
       match c return outcome (answer c) with
       | YouTubeTranscriptApi_fetch _ _ => captions
       | YoutubeDL_extract_info _ _ _ => info
       | OpenAI_responses_parse _ _ _ _ _ => output
       end;
     OpenAI_init := fun _ _ => Returns tt |}.

(** ** The words of the specification *)

(** [t1 + " " + t2 + ... + " " + tN]. *)
Definition spec_flatten (texts : list str) : str :=
  match texts with
  | [] => []
  | t1 :: rest => fold_left (fun acc t => acc ++ lit " " ++ t) rest t1
  end.

(** [pieces] is [s] split on commas: gluing them back with commas gives [s],
    no piece holds a comma, and there is at least one piece. *)
Definition is_split_on_commas (s : str) (pieces : list str) : Prop :=
  join (lit ",") pieces = s
  /\ Forall (fun piece => ~ In 44%N piece) pieces
  /\ pieces <> [].

Definition starts_clean (x : str) : bool :=
  match x with
  | c :: _ => negb (isspace c)
  | [] => true
  end.

(** [x] is [piece] with the whitespace at both ends trimmed. *)
Definition is_trimmed (piece x : str) : Prop :=
  exists l r,
    piece = l ++ x ++ r
    /\ forallb isspace l = true /\ forallb isspace r = true
    /\ starts_clean x = true /\ starts_clean (rev x) = true.

(** The six categories the prompt names. *)
Definition recipe_categories : list str :=
  [lit "appetizer"; lit "main course"; lit "side dish";
   lit "dessert"; lit "beverage"; lit "snack"].



(** [v] with its [recipeCategory] set to [c]. *)
Definition with_category (c : str) (v : pyval) : pyval :=
  match v with
  | PDict d => PDict ((lit "recipeCategory", PStr c) :: d)
  | _ => v
  end.

Definition set_category (c : str) (b : BaseRecipe.t) : BaseRecipe.t :=
  {| BaseRecipe.context := BaseRecipe.context b;
     BaseRecipe.type := BaseRecipe.type b;
     BaseRecipe.name := BaseRecipe.name b;
     BaseRecipe.cookTime := BaseRecipe.cookTime b;
     BaseRecipe.description := BaseRecipe.description b;
     BaseRecipe.keywords := BaseRecipe.keywords b;
     BaseRecipe.prepTime := BaseRecipe.prepTime b;
     BaseRecipe.recipeCategory := c;
     BaseRecipe.recipeCuisine := BaseRecipe.recipeCuisine b;
     BaseRecipe.recipeIngredient := BaseRecipe.recipeIngredient b;
     BaseRecipe.recipeInstructions := BaseRecipe.recipeInstructions b |}.

(** The text of an info field: the string found there, or the empty string
    for a key that is missing or holds a falsy value. *)
Definition text_or_empty (v : option pyval) : str :=
  match v with
  | Some (PStr s) => s
  | _ => []
  end.

(** ** Sample data: the fried-onion video *)

Definition sample_exn : exn := Exception (lit "Video unavailable").

Definition sample_VE : str -> pyval -> exn :=
  fun model _ => Exception (lit "validation error for " ++ model).

Definition sample_settings : Settings.t :=
  {| Settings.openai_base_url := [];
     Settings.openai_api_key := lit "sk-test";
     Settings.openai_model := lit "gpt-4.1-mini";
     Settings.video_id := lit "abc123";
     Settings.preferred_languages := lit "ko, ja" |}.

Definition sample_captions : list Snippet.t :=
  [ {| Snippet.text := lit "First, chop the onions.";
       Snippet.start := 0; Snippet.duration := 2 |};
    {| Snippet.text := lit "Then fry until golden.";
       Snippet.start := 2; Snippet.duration := 3 |} ].

Definition sample_info : dict :=
  [(lit "id", PStr (lit "abc123"));
   (lit "title", PStr (lit "Fried Onion Recipe"));
   (lit "uploader", PStr (lit "ChefX"));
   (lit "thumbnail", PStr (lit "https://img/x.jpg"));
   (lit "view_count", PInt 1200)].

(** An info dict that carries none of the three fields. *)
Definition bare_info : dict := [(lit "id", PStr (lit "abc123"))].

Definition sample_output (category : str) : pyval :=
  PDict
    [(lit "@context", PStr (lit "https://schema.org"));
     (lit "@type", PStr (lit "Recipe"));
     (lit "name", PStr (lit "Fried Onions"));
     (lit "cookTime", PStr (lit "PT10M"));
     (lit "description", PStr (lit "Onions fried until golden."));
     (lit "keywords", PStr (lit "onion, fried"));
     (lit "prepTime", PStr (lit "PT5M"));
     (lit "recipeCategory", PStr category);
     (lit "recipeCuisine", PStr (lit "American"));
     (lit "recipeIngredient", PList [PStr (lit "2 onions")]);
     (lit "recipeInstructions",
      PList
        [PDict [(lit "@type", PStr (lit "HowToStep"));
                (lit "text", PStr (lit "Chop the onions."))];
         PDict [(lit "@type", PStr (lit "HowToSection"));
                (lit "name", PStr (lit "Cooking"));
                (lit "itemListElement",
                 PList [PDict [(lit "text",
                                PStr (lit "Fry until golden."))]])]])].

Definition sample_base_recipe (category : str) : BaseRecipe.t :=
  {| BaseRecipe.context := lit "https://schema.org";
     BaseRecipe.type := lit "Recipe";
     BaseRecipe.name := lit "Fried Onions";
     BaseRecipe.cookTime := lit "PT10M";
     BaseRecipe.description := lit "Onions fried until golden.";
     BaseRecipe.keywords := lit "onion, fried";
     BaseRecipe.prepTime := lit "PT5M";
     BaseRecipe.recipeCategory := category;
     BaseRecipe.recipeCuisine := lit "American";
     BaseRecipe.recipeIngredient := [lit "2 onions"];
     BaseRecipe.recipeInstructions :=
       [Step {| HowToStep.type := lit "HowToStep";
                HowToStep.text := lit "Chop the onions." |};
        Section_
          {| HowToSection.type := lit "HowToSection";
             HowToSection.name := lit "Cooking";
             HowToSection.itemListElement :=
               [{| HowToStep.type := lit "HowToStep";
                   HowToStep.text := lit "Fry until golden." |}] |}] |}.

Definition sample_video_info : VideoInfo.t :=
  {| VideoInfo.title := lit "Fried Onion Recipe";
     VideoInfo.author := lit "ChefX";
     VideoInfo.thumbnail_url := lit "https://img/x.jpg" |}.

Definition sample_recipe : Recipe.t :=
  {| Recipe.context := lit "https://schema.org";
     Recipe.type := lit "Recipe";
     Recipe.name := lit "Fried Onions";
     Recipe.cookTime := lit "PT10M";
     Recipe.description := lit "Onions fried until golden.";
     Recipe.keywords := lit "onion, fried";
     Recipe.prepTime := lit "PT5M";
     Recipe.recipeCategory := lit "side dish";
     Recipe.recipeCuisine := lit "American";
     Recipe.recipeIngredient := [lit "2 onions"];
     Recipe.recipeInstructions :=
       BaseRecipe.recipeInstructions (sample_base_recipe (lit "side dish"));
     Recipe.image := lit "https://img/x.jpg";
     Recipe.author := lit "ChefX" |}.

(** Everything answers. *)
Definition sample_world : world :=
  answering (Returns sample_captions) (Returns (Some sample_info))
    (Returns (Some (sample_output (lit "side dish")))).

(** Captions are there but empty. *)
Definition no_captions_world : world :=
  answering (Returns []) (Returns (Some sample_info))
    (Returns (Some (sample_output (lit "side dish")))).

(** The caption service raises. *)
Definition no_transcript_world : world :=
  answering (Raises (Exception (lit "Subtitles are disabled")))
    (Returns (Some sample_info))
    (Returns (Some (sample_output (lit "side dish")))).

(** The metadata service raises. *)
Definition no_metadata_world : world :=
  answering (Returns sample_captions) (Raises sample_exn)
    (Returns (Some (sample_output (lit "side dish")))).

(** The metadata service answers [None]. *)
Definition null_metadata_world : world :=
  answering (Returns sample_captions) (Returns None)
    (Returns (Some (sample_output (lit "side dish")))).

(** The model answers a category outside the six. *)
Definition brunch_world : world :=
  answering (Returns sample_captions) (Returns (Some sample_info))
    (Returns (Some (sample_output (lit "brunch")))).

(** The metadata service answers a dict without the three fields. *)
Definition bare_metadata_world : world :=
  answering (Returns sample_captions) (Returns (Some bare_info))
    (Returns (Some (sample_output (lit "side dish")))).

(** The preferred-languages setting left empty. *)
Definition empty_languages_settings : Settings.t :=
  {| Settings.openai_base_url := [];
     Settings.openai_api_key := lit "sk-test";
     Settings.openai_model := lit "gpt-4.1-mini";
     Settings.video_id := lit "abc123";
     Settings.preferred_languages := [] |}.

(** ** More ways to read a run *)

(** The calls of a run, in order. *)
Definition calls (tr : list event) : list call :=
  flat_map (fun e => match e with Called c => [c] | _ => [] end) tr.

(** The recipe [from_base_recipe] builds out of a base recipe and the video
    information. *)
Definition assembled (b : BaseRecipe.t) (v : VideoInfo.t) : Recipe.t :=
  {| Recipe.context := BaseRecipe.context b;
     Recipe.type := BaseRecipe.type b;
     Recipe.name := BaseRecipe.name b;
     Recipe.cookTime := BaseRecipe.cookTime b;
     Recipe.description := BaseRecipe.description b;
     Recipe.keywords := BaseRecipe.keywords b;
     Recipe.prepTime := BaseRecipe.prepTime b;
     Recipe.recipeCategory := BaseRecipe.recipeCategory b;
     Recipe.recipeCuisine := BaseRecipe.recipeCuisine b;
     Recipe.recipeIngredient := BaseRecipe.recipeIngredient b;
     Recipe.recipeInstructions := BaseRecipe.recipeInstructions b;
     Recipe.image := VideoInfo.thumbnail_url v;
     Recipe.author := VideoInfo.author v |}.

(** The keys of the fields of [BaseRecipe] that have no default. *)
Definition required_keys : list str :=
  [lit "name"; lit "cookTime"; lit "description"; lit "keywords";
   lit "prepTime"; lit "recipeCategory"; lit "recipeCuisine";
   lit "recipeIngredient"; lit "recipeInstructions"].

(** Text with no code point below U+0020, that is with none of the C0
    control characters; DEL and the C1 controls are not looked at. *)
Definition no_c0_control (s : str) : bool :=
  forallb (fun c => (32 <=? c)%N) s.

(** The number of commas of a text. *)
Definition commas (s : str) : nat := count_occ N.eq_dec s 44%N.

(** The language model raises. *)
Definition model_error_world : world :=
  answering (Returns sample_captions) (Returns (Some sample_info))
    (Raises (Exception (lit "Connection error."))).

(** The response of the language model carries no output text. *)
Definition no_output_world : world :=
  answering (Returns sample_captions) (Returns (Some sample_info))
    (Returns None).

(** The language model answers an object of another type. *)
Definition article_fields : dict :=
  [(lit "@type", PStr (lit "Article")); (lit "name", PStr (lit "Fried Onions"))].

Definition article_output : pyval := PDict article_fields.

(** An answer that stops after the name. *)
Definition short_fields : dict :=
  [(lit "@type", PStr (lit "Recipe")); (lit "name", PStr (lit "Fried Onions"))].

Definition article_world : world :=
  answering (Returns sample_captions) (Returns (Some sample_info))
    (Returns (Some article_output)).

(** An info dict whose title is a number. *)
Definition numeric_title_info : dict :=
  [(lit "id", PStr (lit "abc123")); (lit "title", PInt 42);
   (lit "uploader", PStr (lit "ChefX"))].

Definition numeric_title_world : world :=
  answering (Returns sample_captions) (Returns (Some numeric_title_info))
    (Returns (Some (sample_output (lit "side dish")))).

(** Every service answers, but the client of the language model cannot be
    built. *)
Definition no_client_world : world :=
  {| answers := sample_world;
     OpenAI_init := fun _ _ =>
       Raises (Exception (lit "The api_key client option must be set")) |}.

(** ** Text: splitting, joining, trimming *)

Lemma str_eqb_eq (a b : str) : str_eqb a b = true <-> a = b.
Proof.
  revert b. induction a as [|x a IH]; intros [|y b]; simpl;
    try (split; congruence).
  rewrite andb_true_iff, N.eqb_eq, IH. split.
  - intros [-> ->]. reflexivity.
  - intros E. injection E as -> ->. split; reflexivity.
Qed.

Lemma str_eqb_refl (a : str) : str_eqb a a = true.
Proof. now apply str_eqb_eq. Qed.

Lemma split_not_nil (sep : N) (s : str) : split sep s <> [].
Proof.
  destruct s as [|c s]; simpl; [discriminate|].
  destruct (c =? sep)%N; [discriminate|].
  destruct (split sep s); discriminate.
Qed.

Lemma join_cons (sep p : str) (q : str) (rest : list str) :
  join sep (p :: q :: rest) = p ++ sep ++ join sep (q :: rest).
Proof. reflexivity. Qed.

Lemma join_split (sep : N) (s : str) : join [sep] (split sep s) = s.
Proof.
  induction s as [|c s IH]; [reflexivity|].
  simpl split. destruct (c =? sep)%N eqn:E.
  - apply N.eqb_eq in E. subst c.
    destruct (split sep s) as [|q rest] eqn:Es.
    + now destruct (split_not_nil sep s).
    + rewrite join_cons, IH. reflexivity.
  - destruct (split sep s) as [|q rest] eqn:Es.
    + now destruct (split_not_nil sep s).
    + destruct rest as [|q' rest].
      * simpl in *. now rewrite IH.
      * rewrite join_cons. rewrite join_cons in IH.
        rewrite <- IH. reflexivity.
Qed.

Lemma split_no_sep (sep : N) (s : str) :
  Forall (fun piece => ~ In sep piece) (split sep s).
Proof.
  induction s as [|c s IH]; simpl.
  - constructor; [intros []|constructor].
  - destruct (c =? sep)%N eqn:E.
    + constructor; [intros []|exact IH].
    + apply N.eqb_neq in E.
      destruct (split sep s) as [|q rest]; [repeat constructor; intros [H|[]]; congruence|].
      inversion IH as [|? ? Hq Hrest]; subst.
      constructor; [|exact Hrest].
      intros [H|H]; [congruence|now apply Hq].
Qed.

(** Splitting is the only way to cut [s] into comma-free pieces. *)
Lemma split_unique (sep : N) (s : str) (pieces : list str) :
  join [sep] pieces = s ->
  Forall (fun piece => ~ In sep piece) pieces ->
  pieces <> [] ->
  pieces = split sep s.
Proof.
  revert pieces. induction s as [|c s IH]; intros pieces Hj Hf Hne.
  - destruct pieces as [|p [|q rest]]; [congruence| |].
    + simpl in Hj. now subst.
    + rewrite join_cons in Hj. destruct p; discriminate.
  - destruct pieces as [|p rest]; [congruence|].
    inversion Hf as [|? ? Hp Hrest]; subst.
    destruct p as [|x p].
    + destruct rest as [|q rest]; [discriminate|].
      rewrite join_cons in Hj. simpl in Hj. injection Hj as -> Hj.
      simpl. rewrite N.eqb_refl. f_equal.
      apply IH; [exact Hj|exact Hrest|discriminate].
    + assert (Hx : x = c) by (destruct rest; simpl in Hj; congruence).
      subst x.
      assert (Hc : (c =? sep)%N = false).
      { apply N.eqb_neq. intros ->. apply Hp. now left. }
      simpl. rewrite Hc.
      rewrite <- (IH (p :: rest)); [reflexivity| | |discriminate].
      * destruct rest; simpl in *; congruence.
      * constructor; [|exact Hrest]. intros H. apply Hp. now right.
Qed.

Lemma lstrip_spec (s : str) :
  exists l, s = l ++ lstrip s /\ forallb isspace l = true
            /\ starts_clean (lstrip s) = true.
Proof.
  induction s as [|c s (l & E & Hl & Hc)].
  - exists []. repeat split.
  - simpl. destruct (isspace c) eqn:Ec.
    + exists (c :: l). simpl. rewrite Ec, Hl. repeat split; [|exact Hc].
      now rewrite <- E.
    + exists []. simpl. rewrite Ec. repeat split.
Qed.

Lemma forallb_rev {A : Type} (f : A -> bool) (l : list A) :
  forallb f (rev l) = forallb f l.
Proof.
  induction l as [|a l IH]; [reflexivity|].
  simpl. rewrite forallb_app, IH. simpl. rewrite andb_true_r. apply andb_comm.
Qed.

Lemma strip_spec (s : str) : is_trimmed s (strip s).
Proof.
  unfold is_trimmed, strip, rstrip.
  destruct (lstrip_spec s) as (l & El & Hl & Hm).
  destruct (lstrip_spec (rev (lstrip s))) as (r & Er & Hr & Hx).
  exists l, (rev r). 
  assert (Em : lstrip s = rev (lstrip (rev (lstrip s))) ++ rev r).
  { rewrite <- rev_app_distr, <- Er. now rewrite rev_involutive. }
  repeat split.
  - rewrite <- Em. exact El.
  - exact Hl.
  - now rewrite forallb_rev.
  - destruct (rev (lstrip (rev (lstrip s)))) as [|c x] eqn:Ex; [reflexivity|].
    rewrite Em in Hm. exact Hm.
  - now rewrite rev_involutive.
Qed.

Lemma spec_flatten_join (texts : list str) :
  join (lit " ") texts = spec_flatten texts.
Proof.
  destruct texts as [|t1 rest]; [reflexivity|].
  simpl spec_flatten. revert t1.
  induction rest as [|t2 rest IH]; intros t1; [reflexivity|].
  rewrite join_cons. simpl fold_left. rewrite <- IH.
  destruct rest as [|t3 rest].
  - reflexivity.
  - rewrite !join_cons. now rewrite <- !app_assoc.
Qed.

Lemma startswith_app (pat post : str) : startswith pat (pat ++ post) = true.
Proof.
  induction pat as [|p pat IH]; [reflexivity|].
  simpl. now rewrite N.eqb_refl, IH.
Qed.

Lemma contains_app (pat pre post : str) :
  contains pat (pre ++ pat ++ post) = true.
Proof.
  induction pre as [|c pre IH].
  - simpl app. destruct (pat ++ post) eqn:E; simpl; rewrite <- E;
      now rewrite startswith_app.
  - simpl. rewrite IH. apply orb_true_r.
Qed.

(** ** Validation *)

Ltac invert_validation :=
  repeat match goal with
         | H : Some _ = Some _ |- _ => injection H as H; try subst
         | H : None = Some _ |- _ => discriminate H
         | H : match ?x with _ => _ end = Some _ |- _ =>
             destruct x eqn:?; try discriminate H
         end.

Lemma literal_value (value s : str) (d : dict) (k : str) :
  literal value d k = Some s -> s = value.
Proof.
  unfold literal. intros H.
  destruct (get d k) as [[| | |s'| |]|]; try discriminate.
  - destruct (str_eqb s' value) eqn:E; [|discriminate].
    apply str_eqb_eq in E. congruence.
  - congruence.
Qed.

Lemma traverse_map {A B : Type} (f : pyval -> option B) (g : A -> pyval)
    (h : A -> B) (l : list A) :
  (forall a, In a l -> f (g a) = Some (h a)) ->
  traverse f (map g l) = Some (map h l).
Proof.
  induction l as [|a l IH]; intros H; [reflexivity|].
  simpl. rewrite (H a) by now left.
  rewrite IH; [reflexivity|]. intros a' Ha'. apply H. now right.
Qed.

Lemma traverse_forallb {A B : Type} (f : A -> option B) (P : B -> bool)
    (l : list A) (l' : list B) :
  (forall a b, f a = Some b -> P b = true) ->
  traverse f l = Some l' -> forallb P l' = true.
Proof.
  intros Hf. revert l'. induction l as [|a l IH]; simpl; intros l' H.
  - injection H as <-. reflexivity.
  - destruct (f a) as [b|] eqn:Eb; [|discriminate].
    destruct (traverse f l) as [bs|]; [|discriminate].
    injection H as <-. simpl. rewrite (Hf _ _ Eb), (IH bs eq_refl).
    reflexivity.
Qed.

Lemma traverse_as_str (l : list str) :
  traverse as_str (map PStr l) = Some l.
Proof.
  rewrite (traverse_map as_str PStr (fun s => s)); [now rewrite map_id|].
  reflexivity.
Qed.

Lemma HowToStep_validate_well_typed (v : pyval) (s : HowToStep.t) :
  HowToStep.validate v = Some s -> HowToStep.well_typed s = true.
Proof.
  unfold HowToStep.validate, required. intros H.
  destruct v; try discriminate.
  destruct (literal _ _ _) eqn:El; [|discriminate].
  apply literal_value in El. invert_validation.
  unfold HowToStep.well_typed. apply str_eqb_refl.
Qed.

Lemma HowToSection_validate_well_typed (v : pyval) (s : HowToSection.t) :
  HowToSection.validate v = Some s -> HowToSection.well_typed s = true.
Proof.
  unfold HowToSection.validate, required, as_list. intros H.
  destruct v; try discriminate.
  destruct (literal _ _ _) eqn:El; [|discriminate].
  apply literal_value in El. invert_validation.
  unfold HowToSection.well_typed.
  cbn [HowToSection.type HowToSection.itemListElement].
  rewrite str_eqb_refl. cbn [andb].
  eapply traverse_forallb; [|eassumption].
  exact HowToStep_validate_well_typed.
Qed.

Lemma HowTo_validate_well_typed (v : pyval) (i : howto) :
  HowTo.validate v = Some i -> HowTo.well_typed i = true.
Proof.
  unfold HowTo.validate. intros H.
  destruct (HowToStep.validate v) eqn:Es,
           (HowToSection.validate v) eqn:Ec;
    try discriminate; injection H as <-; simpl;
    eauto using HowToSection_validate_well_typed,
                HowToStep_validate_well_typed.
Qed.

(** Whatever validation accepts meets the [Literal] annotations. *)
Lemma BaseRecipe_validate_well_typed (v : pyval) (b : BaseRecipe.t) :
  BaseRecipe.validate v = Some b -> BaseRecipe.well_typed b = true.
Proof.
  unfold BaseRecipe.validate. intros H.
  destruct v; try discriminate.
  destruct (literal _ _ (lit "@context")) eqn:Ec; [|discriminate].
  destruct (literal _ _ (lit "@type")) eqn:Et; [|discriminate].
  apply literal_value in Ec, Et. subst.
  unfold required, as_list in H. invert_validation.
  unfold BaseRecipe.well_typed.
  cbn [BaseRecipe.context BaseRecipe.type BaseRecipe.recipeInstructions].
  rewrite !str_eqb_refl. cbn [andb].
  eapply traverse_forallb; [|eassumption].
  exact HowTo_validate_well_typed.
Qed.

(** A dump, read back by the constructor: field names that differ from the
    alias are not seen, so the literals come from the defaults. *)
Lemma HowToStep_dump_validate (s : HowToStep.t) :
  HowToStep.well_typed s = true ->
  HowToStep.validate (PDict (HowToStep.model_dump s)) = Some s.
Proof.
  destruct s as [ty tx]. unfold HowToStep.well_typed. simpl.
  intros E. apply str_eqb_eq in E. subst ty. reflexivity.
Qed.

Lemma HowToStep_dump_not_section (s : HowToStep.t) :
  HowToSection.validate (PDict (HowToStep.model_dump s)) = None.
Proof. destruct s. reflexivity. Qed.

Lemma HowToSection_dump_not_step (s : HowToSection.t) :
  HowToStep.validate (PDict (HowToSection.model_dump s)) = None.
Proof. destruct s. reflexivity. Qed.

Lemma HowToSection_dump_validate (s : HowToSection.t) :
  HowToSection.well_typed s = true ->
  HowToSection.validate (PDict (HowToSection.model_dump s)) = Some s.
Proof.
  destruct s as [ty nm items]. unfold HowToSection.well_typed. simpl.
  intros E. apply andb_true_iff in E as [E Hitems].
  apply str_eqb_eq in E. subst ty.
  assert (Ht : traverse HowToStep.validate
                 (map (fun i => PDict (HowToStep.model_dump i)) items)
               = Some items).
  { rewrite (traverse_map _ _ (fun i => i)); [now rewrite map_id|].
    intros a Ha. apply HowToStep_dump_validate.
    rewrite forallb_forall in Hitems. now apply Hitems. }
  unfold HowToSection.validate, HowToSection.model_dump, required, as_list.
  cbn. rewrite Ht. reflexivity.
Qed.

Lemma HowTo_dump_validate (i : howto) :
  HowTo.well_typed i = true ->
  HowTo.validate (PDict (HowTo.model_dump i)) = Some i.
Proof.
  destruct i as [s|s]; simpl; intros H; unfold HowTo.validate.
  - now rewrite HowToStep_dump_not_section, HowToStep_dump_validate.
  - now rewrite HowToSection_dump_validate.
Qed.

Lemma traverse_HowTo_dump (l : list howto) :
  forallb HowTo.well_typed l = true ->
  traverse HowTo.validate (map (fun i => PDict (HowTo.model_dump i)) l)
  = Some l.
Proof.
  intros H.
  rewrite (traverse_map _ _ (fun i => i)); [now rewrite map_id|].
  intros a Ha. apply HowTo_dump_validate.
  rewrite forallb_forall in H. now apply H.
Qed.

(** [from_base_recipe] on a well-typed base recipe: it succeeds, and with
    which record. *)
Lemma from_base_recipe_eq (b : BaseRecipe.t) (v : VideoInfo.t) :
  BaseRecipe.well_typed b = true ->
  Recipe.from_base_recipe b v =
  Some {| Recipe.context := BaseRecipe.context b;
          Recipe.type := BaseRecipe.type b;
          Recipe.name := BaseRecipe.name b;
          Recipe.cookTime := BaseRecipe.cookTime b;
          Recipe.description := BaseRecipe.description b;
          Recipe.keywords := BaseRecipe.keywords b;
          Recipe.prepTime := BaseRecipe.prepTime b;
          Recipe.recipeCategory := BaseRecipe.recipeCategory b;
          Recipe.recipeCuisine := BaseRecipe.recipeCuisine b;
          Recipe.recipeIngredient := BaseRecipe.recipeIngredient b;
          Recipe.recipeInstructions := BaseRecipe.recipeInstructions b;
          Recipe.image := VideoInfo.thumbnail_url v;
          Recipe.author := VideoInfo.author v |}.
Proof.
  destruct b as [cx ty nm ct ds kw pt rc cu ing ins], v as [vt va vu].
  unfold BaseRecipe.well_typed. simpl. intros H.
  apply andb_true_iff in H as [H Hins].
  apply andb_true_iff in H as [Hcx Hty].
  apply str_eqb_eq in Hcx, Hty. subst cx ty.
  pose proof (traverse_HowTo_dump ins Hins) as Hi.
  pose proof (traverse_as_str ing) as Hg.
  unfold Recipe.from_base_recipe, Recipe.from_base_recipe_kwargs,
    Recipe.validate, BaseRecipe.model_dump, required, as_list.
  cbn. rewrite Hg, Hi. reflexivity.
Qed.

(** ** Runs of the fetchers *)

Lemma run_bind {A B : Type} (w : world) (m : M A) (f : A -> M B) :
  run w (bind m f) =
  match run w m with
  | (tr, Returns a) => let (tr', r) := run w (f a) in (tr ++ tr', r)
  | (tr, Raises e) => (tr, Raises e)
  end.
Proof.
  induction m as [[a|e]|c k IH|s k IH|b a k IH]; simpl.
  - now destruct (run w (f a)).
  - reflexivity.
  - rewrite IH. destruct (run w (k (w c))) as [tr [a|e]];
      [destruct (run w (f a))|]; reflexivity.
  - rewrite IH. destruct (run w k) as [tr [a|e]];
      [destruct (run w (f a))|]; reflexivity.
  - rewrite IH. destruct (run w (k (OpenAI_init w b a))) as [tr [x|e]];
      [destruct (run w (f x))|]; reflexivity.
Qed.

Lemma run_get_transcript (st : Settings.t) (w : world) (vid : str) :
  run w (get_transcript st vid) =
  match w (transcript_call st vid) with
  | Returns captions =>
      ([Called (transcript_call st vid)],
       Returns (Some (join (lit " ") (map Snippet.text captions))))
  | Raises e =>
      ([Called (transcript_call st vid);
        Printed (lit "Error fetching transcript: " ++ str_of_exn e)],
       Returns None)
  end.
Proof.
  unfold get_transcript, transcript_call. simpl.
  destruct (w _); reflexivity.
Qed.

Lemma run_get_video_info (VE : str -> pyval -> exn) (w : world) (vid : str) :
  run w (get_video_info VE vid) =
  match w (video_info_call vid) with
  | Raises e =>
      ([Called (video_info_call vid);
        Printed (lit "Error fetching video info: " ++ str_of_exn e)],
       Returns None)
  | Returns None => ([Called (video_info_call vid)], Returns None)
  | Returns (Some info) =>
      match VideoInfo.validate (video_info_kwargs info) with
      | Some video_info =>
          ([Called (video_info_call vid)], Returns (Some video_info))
      | None =>
          ([Called (video_info_call vid);
            Printed (lit "Error fetching video info: "
                     ++ str_of_exn (VE (lit "VideoInfo")
                                      (PDict (video_info_kwargs info))))],
           Returns None)
      end
  end.
Proof.
  unfold get_video_info, video_info_call. simpl.
  destruct (w _) as [[info|]|e]; try reflexivity.
  fold (video_info_kwargs info).
  destruct (VideoInfo.validate (video_info_kwargs info)); reflexivity.
Qed.

Lemma run_extract_recipe (VE : str -> pyval -> exn) (st : Settings.t)
    (w : world) (title transcript : str) :
  run w (extract_recipe VE st title transcript) =
  match OpenAI_init w (Settings.openai_base_url st)
          (Settings.openai_api_key st) with
  | Raises e => ([client_built st], Raises e)
  | Returns _ =>
      match w (recipe_call st title transcript) with
      | Raises e =>
          ([client_built st; Called (recipe_call st title transcript);
            Printed (lit "Error extracting recipe: " ++ str_of_exn e)],
           Returns None)
      | Returns None =>
          ([client_built st; Called (recipe_call st title transcript)],
           Returns None)
      | Returns (Some v) =>
          match BaseRecipe.validate v with
          | Some parsed =>
              ([client_built st; Called (recipe_call st title transcript)],
               Returns (Some parsed))
          | None =>
              ([client_built st; Called (recipe_call st title transcript);
                Printed (lit "Error extracting recipe: "
                         ++ str_of_exn (VE (lit "BaseRecipe") v))],
               Returns None)
          end
      end
  end.
Proof.
  unfold extract_recipe, responses_parse, recipe_call, client_built. simpl.
  destruct (OpenAI_init w _ _) as [[]|e0]; simpl; [|reflexivity].
  destruct (answers w _) as [[v|]|e]; try reflexivity.
  destruct (BaseRecipe.validate v); reflexivity.
Qed.

(** ** The claims *)

(** C1. When the caption service answers the entries [t1 .. tN], the
    transcript fetcher returns [t1 + " " + t2 + ... + " " + tN]: the texts in
    their order, one space between neighbours, nothing else. *)
Theorem get_transcript_joins_captions (st : Settings.t) (w : world)
    (vid : str) (captions : list Snippet.t) :
  w (transcript_call st vid) = Returns captions ->
  result w (get_transcript st vid)
  = Returns (Some (spec_flatten (map Snippet.text captions))).
Proof.
  intros H. unfold result. rewrite run_get_transcript, H. simpl.
  now rewrite spec_flatten_join.
Qed.

Lemma get_transcript_joins_captions_witness :
  sample_world (transcript_call sample_settings (lit "abc123"))
  = Returns sample_captions
  /\ result sample_world (get_transcript sample_settings (lit "abc123"))
     = Returns (Some (lit "First, chop the onions. Then fry until golden.")).
Proof.
  split; [reflexivity|].
  exact (@get_transcript_joins_captions sample_settings sample_world
           (lit "abc123") sample_captions eq_refl).
Defined.

(** C2. [Recipe.from_base_recipe b v] succeeds on every well-typed [b] and
    every [v]; the recipe it builds has each inherited field equal to that
    of [b], [image] equal to [v.thumbnail_url] and [author] equal to
    [v.author]. *)
Theorem from_base_recipe_copies_fields (b : BaseRecipe.t) (v : VideoInfo.t) :
  BaseRecipe.well_typed b = true ->
  exists r,
    Recipe.from_base_recipe b v = Some r
    /\ Recipe.context r = BaseRecipe.context b
    /\ Recipe.type r = BaseRecipe.type b
    /\ Recipe.name r = BaseRecipe.name b
    /\ Recipe.cookTime r = BaseRecipe.cookTime b
    /\ Recipe.description r = BaseRecipe.description b
    /\ Recipe.keywords r = BaseRecipe.keywords b
    /\ Recipe.prepTime r = BaseRecipe.prepTime b
    /\ Recipe.recipeCategory r = BaseRecipe.recipeCategory b
    /\ Recipe.recipeCuisine r = BaseRecipe.recipeCuisine b
    /\ Recipe.recipeIngredient r = BaseRecipe.recipeIngredient b
    /\ Recipe.recipeInstructions r = BaseRecipe.recipeInstructions b
    /\ Recipe.image r = VideoInfo.thumbnail_url v
    /\ Recipe.author r = VideoInfo.author v.
Proof.
  intros H. eexists. split; [exact (@from_base_recipe_eq b v H)|].
  repeat split.
Qed.

Lemma from_base_recipe_copies_fields_witness :
  BaseRecipe.well_typed (sample_base_recipe (lit "side dish")) = true
  /\ exists r,
       Recipe.from_base_recipe (sample_base_recipe (lit "side dish"))
         sample_video_info = Some r
       /\ Recipe.name r = lit "Fried Onions"
       /\ Recipe.image r = lit "https://img/x.jpg"
       /\ Recipe.author r = lit "ChefX".
Proof.
  split; [reflexivity|].
  destruct (@from_base_recipe_copies_fields
              (sample_base_recipe (lit "side dish")) sample_video_info
              eq_refl)
    as (r & E & _ & _ & En & _ & _ & _ & _ & _ & _ & _ & _ & Ei & Ea).
  exists r. repeat split; assumption.
Defined.



Ltac main_step :=
  match goal with
  | |- context [run _ (bind _ _)] => rewrite run_bind
  | |- context [run _ (get_transcript _ _)] => rewrite run_get_transcript
  | |- context [run _ (get_video_info _ _)] => rewrite run_get_video_info
  | |- context [run _ (extract_recipe _ _ _ _)] => rewrite run_extract_recipe
  end.


Lemma get_cons_other (k k' : str) (v : pyval) (d : dict) :
  str_eqb k k' = false -> get ((k, v) :: d) k' = get d k'.
Proof. intros H. simpl. now rewrite H. Qed.

(** C4, as the code has it.  The category of an accepted value is the text
    found under [recipeCategory], whatever it is: an accepted value stays
    accepted, with every other field unchanged, when that text is replaced by
    any other.  The six categories are named in the prompt only. *)
Theorem validated_category_is_free_text (v : pyval) (b : BaseRecipe.t) :
  BaseRecipe.validate v = Some b ->
  (exists d,
      v = PDict d
      /\ get d (lit "recipeCategory")
         = Some (PStr (BaseRecipe.recipeCategory b)))
  /\ forall c : str,
      BaseRecipe.validate (with_category c v) = Some (set_category c b).
Proof.
  intros H. destruct v as [| | | | |d]; try discriminate H. split.
  - exists d. split; [reflexivity|].
    unfold BaseRecipe.validate, required in H.
    destruct (get d (lit "recipeCategory")) as [[| | |s| |]|] eqn:E;
      invert_validation; simpl in *; try discriminate.
    congruence.
  - intros c. unfold with_category.
    unfold BaseRecipe.validate, required, literal in *.
    rewrite !get_cons_other by reflexivity.
    rewrite (@get_cons_other _ (lit "recipeCuisine")),
      (@get_cons_other _ (lit "recipeIngredient")),
      (@get_cons_other _ (lit "recipeInstructions")) by reflexivity.
    change (get ((lit "recipeCategory", PStr c) :: d) (lit "recipeCategory"))
      with (Some (PStr c)).
    invert_validation; reflexivity.
Qed.

Lemma validated_category_is_free_text_witness :
  BaseRecipe.validate (sample_output (lit "brunch"))
  = Some (sample_base_recipe (lit "brunch"))
  /\ BaseRecipe.validate
       (with_category (lit "dessert") (sample_output (lit "brunch")))
     = Some (set_category (lit "dessert") (sample_base_recipe (lit "brunch"))).
Proof.
  split; [reflexivity|].
  exact (proj2 (@validated_category_is_free_text
                  (sample_output (lit "brunch"))
                  (sample_base_recipe (lit "brunch")) eq_refl)
           (lit "dessert")).
Defined.

(** C4 as stated fails: the extractor accepts, and returns, a recipe whose
    category is none of the six. *)
Lemma extractor_accepts_brunch :
  BaseRecipe.validate (sample_output (lit "brunch"))
  = Some (sample_base_recipe (lit "brunch"))
  /\ result brunch_world
       (extract_recipe sample_VE sample_settings (lit "Fried Onion Recipe")
          (lit "First, chop the onions. Then fry until golden."))
     = Returns (Some (sample_base_recipe (lit "brunch")))
  /\ ~ In (BaseRecipe.recipeCategory (sample_base_recipe (lit "brunch")))
          recipe_categories.
Proof.
  split; [reflexivity|]. split; [reflexivity|].
  simpl. intros H. repeat destruct H as [H|H]; discriminate H || exact H.
Qed.

(** The prompt is where the six categories are named. *)
Lemma prompt_names_categories :
  forallb (fun c => contains (dq ++ c ++ dq) instruction) recipe_categories
  = true.
Proof. vm_compute. reflexivity. Qed.

(** C5 as stated fails on an empty caption list: the transcript is the empty
    string, not [None], and the run goes on to the metadata service and the
    language model and prints the recipe. *)
Lemma empty_captions_run_goes_on :
  no_captions_world (transcript_call sample_settings (lit "abc123"))
  = Returns []
  /\ result no_captions_world (get_transcript sample_settings (lit "abc123"))
     = Returns (Some [])
  /\ existsb is_metadata_call
       (trace no_captions_world (main sample_VE sample_settings)) = true
  /\ existsb is_llm_call
       (trace no_captions_world (main sample_VE sample_settings)) = true
  /\ forall msg,
       In msg failure_messages ->
       ~ In msg (printed (trace no_captions_world
                            (main sample_VE sample_settings))).
Proof.
  split; [reflexivity|]. split; [reflexivity|].
  split; [vm_compute; reflexivity|]. split; [vm_compute; reflexivity|].
  intros msg Hm Hp.
  assert (E : printed (trace no_captions_world
                          (main sample_VE sample_settings))
              = [Recipe.model_dump_json sample_recipe])
    by (vm_compute; reflexivity).
  rewrite E in Hp. destruct Hp as [Hp|[]]. subst msg.
  simpl in Hm. repeat destruct Hm as [Hm|Hm]; discriminate Hm || exact Hm.
Qed.

(** C5, as the code has it.  When the caption service raises, [main] logs the
    error, prints its failure message and stops: the metadata service and
    the language model are not called and no recipe is printed. *)
Theorem transcript_failure_stops_main (VE : str -> pyval -> exn)
    (st : Settings.t) (w : world) (e : exn) :
  w (transcript_call st (Settings.video_id st)) = Raises e ->
  trace w (main VE st)
  = [Called (transcript_call st (Settings.video_id st));
     Printed (lit "Error fetching transcript: " ++ str_of_exn e);
     Printed (lit "Failed to retrieve transcript.")]
  /\ existsb is_metadata_call (trace w (main VE st)) = false
  /\ existsb is_llm_call (trace w (main VE st)) = false.
Proof.
  intros H.
  assert (E : trace w (main VE st)
              = [Called (transcript_call st (Settings.video_id st));
                 Printed (lit "Error fetching transcript: " ++ str_of_exn e);
                 Printed (lit "Failed to retrieve transcript.")]).
  { unfold trace, main. repeat main_step. rewrite H. reflexivity. }
  rewrite E. repeat split.
Qed.

Lemma transcript_failure_stops_main_witness :
  no_transcript_world
    (transcript_call sample_settings (Settings.video_id sample_settings))
  = Raises (Exception (lit "Subtitles are disabled"))
  /\ printed (trace no_transcript_world (main sample_VE sample_settings))
     = [lit "Error fetching transcript: Subtitles are disabled";
        lit "Failed to retrieve transcript."].
Proof.
  split; [reflexivity|].
  rewrite (proj1 (@transcript_failure_stops_main sample_VE sample_settings
                    no_transcript_world
                    (Exception (lit "Subtitles are disabled")) eq_refl)).
  reflexivity.
Defined.

(** C6. When the captions are there and the metadata service raises,
    [get_video_info] catches the exception, logs it and returns [None];
    [main] then prints its failure message and stops without calling the
    language model. *)
Theorem metadata_failure_stops_main (VE : str -> pyval -> exn)
    (st : Settings.t) (w : world) (captions : list Snippet.t) (e : exn) :
  w (transcript_call st (Settings.video_id st)) = Returns captions ->
  w (video_info_call (Settings.video_id st)) = Raises e ->
  run w (get_video_info VE (Settings.video_id st))
  = ([Called (video_info_call (Settings.video_id st));
      Printed (lit "Error fetching video info: " ++ str_of_exn e)],
     Returns None)
  /\ run w (main VE st)
     = ([Called (transcript_call st (Settings.video_id st));
         Called (video_info_call (Settings.video_id st));
         Printed (lit "Error fetching video info: " ++ str_of_exn e);
         Printed (lit "Failed to retrieve video information.")],
        Returns tt)
  /\ existsb is_llm_call (trace w (main VE st)) = false.
Proof.
  intros Ht Hv.
  assert (E : run w (main VE st)
     = ([Called (transcript_call st (Settings.video_id st));
         Called (video_info_call (Settings.video_id st));
         Printed (lit "Error fetching video info: " ++ str_of_exn e);
         Printed (lit "Failed to retrieve video information.")],
        Returns tt)).
  { unfold main. repeat main_step. rewrite Ht. cbn iota beta.
    repeat main_step. rewrite Hv. reflexivity. }
  split; [now rewrite run_get_video_info, Hv|].
  split; [exact E|]. unfold trace. rewrite E. reflexivity.
Qed.

Lemma metadata_failure_stops_main_witness :
  no_metadata_world
    (transcript_call sample_settings (Settings.video_id sample_settings))
  = Returns sample_captions
  /\ no_metadata_world (video_info_call (Settings.video_id sample_settings))
     = Raises sample_exn
  /\ printed (trace no_metadata_world (main sample_VE sample_settings))
     = [lit "Error fetching video info: Video unavailable";
        lit "Failed to retrieve video information."].
Proof.
  split; [reflexivity|]. split; [reflexivity|].
  unfold trace.
  rewrite (proj1 (proj2 (@metadata_failure_stops_main sample_VE
                           sample_settings no_metadata_world sample_captions
                           sample_exn eq_refl eq_refl))).
  reflexivity.
Defined.

Lemma Forall2_map_r {A B : Type} (R : A -> B -> Prop) (f : A -> B)
    (l : list A) :
  (forall a, R a (f a)) -> Forall2 R l (map f l).
Proof.
  intros H. induction l; simpl; constructor; auto.
Qed.

Lemma trace_main_starts_with_fetch (VE : str -> pyval -> exn)
    (st : Settings.t) (w : world) :
  exists rest,
    trace w (main VE st)
    = Called (transcript_call st (Settings.video_id st)) :: rest.
Proof.
  unfold trace, main. repeat main_step.
  destruct (w (transcript_call _ _)) as [captions|e].
  - cbn iota beta.
    destruct (run w _) as [tr r]. simpl. eauto.
  - simpl. eauto.
Qed.

(** C7. The first thing [main] does is the caption call, and the language
    list it passes is: the preferred-languages setting split on commas, each
    piece trimmed of its surrounding whitespace, in order, followed by one
    ["en"]. *)
Theorem languages_passed_to_fetch (VE : str -> pyval -> exn)
    (st : Settings.t) (w : world) :
  exists pieces langs rest,
    is_split_on_commas (Settings.preferred_languages st) pieces
    /\ Forall2 is_trimmed pieces langs
    /\ Settings.preferred_languages_list st = langs
    /\ trace w (main VE st)
       = Called (YouTubeTranscriptApi_fetch (Settings.video_id st)
                   (langs ++ [lit "en"])) :: rest.
Proof.
  destruct (trace_main_starts_with_fetch VE st w) as [rest E].
  exists (split 44 (Settings.preferred_languages st)),
    (map strip (split 44 (Settings.preferred_languages st))), rest.
  repeat split.
  - apply (join_split 44).
  - apply split_no_sep.
  - apply split_not_nil.
  - apply Forall2_map_r. exact strip_spec.
  - exact E.
Qed.



(** C9. With the preferred-languages setting empty, the derived list is the
    one-element list holding the empty string, and the caption call is made
    with the languages [""] and ["en"]. *)
Theorem empty_setting_gives_one_empty_language (VE : str -> pyval -> exn)
    (st : Settings.t) (w : world) :
  Settings.preferred_languages st = [] ->
  Settings.preferred_languages_list st = [[]]
  /\ exists rest,
       trace w (main VE st)
       = Called (YouTubeTranscriptApi_fetch (Settings.video_id st)
                   [[]; lit "en"]) :: rest.
Proof.
  intros H.
  assert (E : Settings.preferred_languages_list st = [[]]).
  { unfold Settings.preferred_languages_list. now rewrite H. }
  split; [exact E|].
  destruct (trace_main_starts_with_fetch VE st w) as [rest Er].
  exists rest. rewrite Er. unfold transcript_call. now rewrite E.
Qed.

Lemma empty_setting_gives_one_empty_language_witness :
  Settings.preferred_languages empty_languages_settings = []
  /\ Settings.preferred_languages_list empty_languages_settings = [[]].
Proof.
  split; [reflexivity|].
  exact (proj1 (@empty_setting_gives_one_empty_language sample_VE
                  empty_languages_settings sample_world eq_refl)).
Defined.

(** C10. [get_video_info] returns [None] when the extraction call raises,
    after printing the error, and also when the call returns [None], and
    then nothing is printed; on an info dict it returns what the
    [VideoInfo] constructor makes of it, or [None]. *)
Theorem get_video_info_absent_results (VE : str -> pyval -> exn) (w : world)
    (vid : str) :
  match w (video_info_call vid) with
  | Raises e =>
      run w (get_video_info VE vid)
      = ([Called (video_info_call vid);
          Printed (lit "Error fetching video info: " ++ str_of_exn e)],
         Returns None)
  | Returns None =>
      run w (get_video_info VE vid)
      = ([Called (video_info_call vid)], Returns None)
      /\ printed (trace w (get_video_info VE vid)) = []
  | Returns (Some info) =>
      result w (get_video_info VE vid)
      = Returns (VideoInfo.validate (video_info_kwargs info))
  end.
Proof.
  unfold trace, result. rewrite run_get_video_info.
  destruct (w (video_info_call vid)) as [[info|]|e].
  - now destruct (VideoInfo.validate (video_info_kwargs info)).
  - split; reflexivity.
  - reflexivity.
Qed.


(** The scenario of the specification, end to end. *)
Example fried_onions_run :
  printed (trace sample_world (main sample_VE sample_settings))
  = [Recipe.model_dump_json sample_recipe]
  /\ contains (json_member (lit "name") (json_str (lit "Fried Onions")))
       (Recipe.model_dump_json sample_recipe) = true
  /\ contains (json_member (lit "image") (json_str (lit "https://img/x.jpg")))
       (Recipe.model_dump_json sample_recipe) = true
  /\ contains (json_member (lit "author") (json_str (lit "ChefX")))
       (Recipe.model_dump_json sample_recipe) = true.
Proof. repeat split; vm_compute; reflexivity. Qed.

(** ** Further properties of the script *)

Lemma from_base_recipe_assembled (b : BaseRecipe.t) (v : VideoInfo.t) :
  BaseRecipe.well_typed b = true ->
  Recipe.from_base_recipe b v = Some (assembled b v).
Proof. exact (@from_base_recipe_eq b v). Qed.

(** What a run of [main] is, case by case. *)
Lemma run_main (VE : str -> pyval -> exn) (st : Settings.t) (w : world) :
  run w (main VE st) =
  let vid := Settings.video_id st in
  let tc := Called (transcript_call st vid) in
  let vc := Called (video_info_call vid) in
  match w (transcript_call st vid) with
  | Raises e =>
      ([tc; Printed (lit "Error fetching transcript: " ++ str_of_exn e);
        Printed (lit "Failed to retrieve transcript.")], Returns tt)
  | Returns captions =>
      let text := join (lit " ") (map Snippet.text captions) in
      match w (video_info_call vid) with
      | Raises e =>
          ([tc; vc;
            Printed (lit "Error fetching video info: " ++ str_of_exn e);
            Printed (lit "Failed to retrieve video information.")],
           Returns tt)
      | Returns None =>
          ([tc; vc; Printed (lit "Failed to retrieve video information.")],
           Returns tt)
      | Returns (Some info) =>
          match VideoInfo.validate (video_info_kwargs info) with
          | None =>
              ([tc; vc;
                Printed (lit "Error fetching video info: "
                         ++ str_of_exn
                              (VE (lit "VideoInfo")
                                 (PDict (video_info_kwargs info))));
                Printed (lit "Failed to retrieve video information.")],
               Returns tt)
          | Some vi =>
              let cc := client_built st in
              let rc := Called (recipe_call st (VideoInfo.title vi) text) in
              match OpenAI_init w (Settings.openai_base_url st)
                      (Settings.openai_api_key st) with
              | Raises e => ([tc; vc; cc], Raises e)
              | Returns _ =>
                  match w (recipe_call st (VideoInfo.title vi) text) with
                  | Raises e =>
                      ([tc; vc; cc; rc;
                        Printed (lit "Error extracting recipe: "
                                 ++ str_of_exn e);
                        Printed (lit "Failed to extract recipe")],
                       Returns tt)
                  | Returns None =>
                      ([tc; vc; cc; rc;
                        Printed (lit "Failed to extract recipe")],
                       Returns tt)
                  | Returns (Some v) =>
                      match BaseRecipe.validate v with
                      | None =>
                          ([tc; vc; cc; rc;
                            Printed (lit "Error extracting recipe: "
                                     ++ str_of_exn (VE (lit "BaseRecipe") v));
                            Printed (lit "Failed to extract recipe")],
                           Returns tt)
                      | Some b =>
                          ([tc; vc; cc; rc;
                            Printed (Recipe.model_dump_json
                                       (assembled b vi))],
                           Returns tt)
                      end
                  end
              end
          end
      end
  end.
Proof.
  unfold main. repeat main_step.
  destruct (w (transcript_call _ _)) as [captions|e]; [|reflexivity].
  cbn iota beta zeta. repeat main_step.
  destruct (w (video_info_call _)) as [[info|]|e]; try reflexivity.
  destruct (VideoInfo.validate _) as [vi|]; [|reflexivity].
  cbn iota beta zeta. repeat main_step.
  destruct (OpenAI_init w _ _) as [[]|e0]; [|reflexivity].
  destruct (w (recipe_call _ _ _)) as [[v|]|e]; try reflexivity.
  destruct (BaseRecipe.validate v) as [b|] eqn:Eb; [|reflexivity].
  cbn iota beta zeta.
  rewrite (@from_base_recipe_assembled b vi (@BaseRecipe_validate_well_typed _ _ Eb)).
  reflexivity.
Qed.

Lemma VideoInfo_validate_kwargs (info : dict) :
  VideoInfo.validate (video_info_kwargs info)
  = match as_str (get_or info (lit "title") (PStr [])),
          as_str (get_or info (lit "uploader") (PStr [])),
          as_str (get_or info (lit "thumbnail") (PStr [])) with
    | Some t, Some a, Some u =>
        Some {| VideoInfo.title := t; VideoInfo.author := a;
                VideoInfo.thumbnail_url := u |}
    | _, _, _ => None
    end.
Proof.
  unfold VideoInfo.validate, video_info_kwargs, required.
  change (get _ (lit "title"))
    with (Some (get_or info (lit "title") (PStr []))).
  change (get _ (lit "author"))
    with (Some (get_or info (lit "uploader") (PStr []))).
  change (get _ (lit "thumbnail_url"))
    with (Some (get_or info (lit "thumbnail") (PStr []))).
  destruct (as_str (get_or info (lit "title") (PStr [])));
    [|reflexivity].
  destruct (as_str (get_or info (lit "uploader") (PStr [])));
    [|reflexivity].
  destruct (as_str (get_or info (lit "thumbnail") (PStr [])));
    reflexivity.
Qed.

Lemma as_str_get_or (info : dict) (k s : str) :
  as_str (get_or info k (PStr [])) = Some s ->
  s = text_or_empty (get info k).
Proof.
  unfold get_or.
  destruct (get info k) as [[|b|z|s'|l|d]|]; simpl;
    try destruct b; try destruct (negb _); try destruct s';
    try destruct l; try destruct d; simpl; congruence.
Qed.

Lemma video_info_of_kwargs (info : dict) (vi : VideoInfo.t) :
  VideoInfo.validate (video_info_kwargs info) = Some vi ->
  VideoInfo.title vi = text_or_empty (get info (lit "title"))
  /\ VideoInfo.author vi = text_or_empty (get info (lit "uploader"))
  /\ VideoInfo.thumbnail_url vi = text_or_empty (get info (lit "thumbnail")).
Proof.
  rewrite VideoInfo_validate_kwargs. intros H.
  destruct (as_str (get_or info (lit "title") _)) as [t|] eqn:Et;
    [|discriminate].
  destruct (as_str (get_or info (lit "uploader") _)) as [a|] eqn:Ea;
    [|discriminate].
  destruct (as_str (get_or info (lit "thumbnail") _)) as [u|] eqn:Eu;
    [|discriminate].
  injection H as <-. simpl.
  apply as_str_get_or in Et, Ea, Eu. auto.
Qed.

Lemma join_In (sep m : str) (ms : list str) :
  In m ms -> exists pre post, join sep ms = pre ++ m ++ post.
Proof.
  induction ms as [|x [|y rest] IH]; intros H.
  - destruct H.
  - destruct H as [->|[]]. exists [], []. simpl. now rewrite app_nil_r.
  - rewrite join_cons. destruct H as [->|H].
    + exists [], (sep ++ join sep (y :: rest)). reflexivity.
    + destruct (IH H) as (pre & post & E). rewrite E.
      exists (x ++ sep ++ pre), post. now rewrite <- !app_assoc.
Qed.

Lemma contains_json_object (m : str) (ms : list str) :
  In m ms -> contains m (json_object ms) = true.
Proof.
  intros H. destruct (join_In (lit ",") m ms H) as (pre & post & E).
  unfold json_object. rewrite E.
  replace (lit "{" ++ (pre ++ m ++ post) ++ lit "}")
    with ((lit "{" ++ pre) ++ m ++ (post ++ lit "}"))
    by now rewrite <- !app_assoc.
  apply contains_app.
Qed.

Ltac returned_case :=
  split;
  [ intros ?; split;
    [ intros H; discriminate H
    | intros (Hc & ? & ? & Ht' & Hv');
      solve [discriminate Hc | discriminate Ht' | discriminate Hv'] ]
  | simpl; auto ].

(** X1. The one exception that leaves [main] is that of the client
    constructor, which stands before the [try]: [main] raises [e] exactly
    when the captions and the video information came and [OpenAI(...)]
    raised [e], and then nothing has been printed; in every other run [main]
    returns, having called [print] once or twice. *)
Theorem main_raises_only_the_client_error (VE : str -> pyval -> exn)
    (st : Settings.t) (w : world) :
  (forall e,
      result w (main VE st) = Raises e
      <-> OpenAI_init w (Settings.openai_base_url st)
            (Settings.openai_api_key st) = Raises e
          /\ exists captions vi,
               w (transcript_call st (Settings.video_id st))
               = Returns captions
               /\ result w (get_video_info VE (Settings.video_id st))
                  = Returns (Some vi))
  /\ match result w (main VE st) with
     | Returns _ =>
         (1 <= List.length (printed (trace w (main VE st))) <= 2)%nat
     | Raises _ => printed (trace w (main VE st)) = []
     end.
Proof.
  unfold result, trace. rewrite run_main, run_get_video_info. cbv zeta.
  destruct (w (transcript_call _ _)) as [captions|e]; [|returned_case].
  destruct (w (video_info_call _)) as [[info|]|e]; try returned_case.
  destruct (VideoInfo.validate _) as [vi|]; [|returned_case].
  destruct (OpenAI_init w _ _) as [[]|e0].
  - destruct (w (recipe_call _ _ _)) as [[v|]|e]; try returned_case.
    destruct (BaseRecipe.validate v); returned_case.
  - split; [|reflexivity].
    intros e. split.
    + intros H. injection H as <-. split; [reflexivity|].
      exists captions, vi. split; reflexivity.
    + intros (Hc & _). exact Hc.
Qed.

Lemma main_raises_only_the_client_error_witness :
  result no_client_world (main sample_VE sample_settings)
  = Raises (Exception (lit "The api_key client option must be set"))
  /\ printed (trace no_client_world (main sample_VE sample_settings)) = [].
Proof.
  split; [|reflexivity].
  apply (proj2 (proj1 (@main_raises_only_the_client_error sample_VE
                         sample_settings no_client_world)
                  (Exception (lit "The api_key client option must be set")))).
  split; [reflexivity|].
  exists sample_captions, sample_video_info. split; reflexivity.
Defined.

(** X2. [main] calls each service at most once and in one order: captions,
    then metadata, then the language model; the model is asked about the
    title of the video information and the joined captions. *)
Theorem main_calls_in_order (VE : str -> pyval -> exn) (st : Settings.t)
    (w : world) :
  let tc := transcript_call st (Settings.video_id st) in
  let vc := video_info_call (Settings.video_id st) in
  calls (trace w (main VE st)) = [tc]
  \/ calls (trace w (main VE st)) = [tc; vc]
  \/ exists captions vi,
       w tc = Returns captions
       /\ result w (get_video_info VE (Settings.video_id st))
          = Returns (Some vi)
       /\ calls (trace w (main VE st))
          = [tc; vc;
             recipe_call st (VideoInfo.title vi)
               (join (lit " ") (map Snippet.text captions))].
Proof.
  cbv zeta. unfold result, trace.
  rewrite run_main, run_get_video_info. cbv zeta.
  destruct (w (transcript_call _ _)) as [captions|e]; [|left; reflexivity].
  destruct (w (video_info_call _)) as [[info|]|e];
    try (right; left; reflexivity).
  destruct (VideoInfo.validate _) as [vi|]; [|right; left; reflexivity].
  destruct (OpenAI_init w _ _) as [[]|e0]; [|right; left; reflexivity].
  right. right. exists captions, vi. split; [reflexivity|].
  split; [reflexivity|].
  destruct (w (recipe_call _ _ _)) as [[v|]|e]; try reflexivity.
  destruct (BaseRecipe.validate v); reflexivity.
Qed.

(** X3. When the three services answer, the client of the language model
    can be built and both validations pass, [main] makes the three calls,
    prints the JSON of the assembled recipe and nothing else; in that text
    [image] is the thumbnail of the info dict and [author] its uploader, each
    the empty string when the dict has none. *)
Theorem main_success_run (VE : str -> pyval -> exn) (st : Settings.t)
    (w : world) (captions : list Snippet.t) (info : dict)
    (vi : VideoInfo.t) (v : pyval) (b : BaseRecipe.t) :
  w (transcript_call st (Settings.video_id st)) = Returns captions ->
  w (video_info_call (Settings.video_id st)) = Returns (Some info) ->
  VideoInfo.validate (video_info_kwargs info) = Some vi ->
  OpenAI_init w (Settings.openai_base_url st) (Settings.openai_api_key st)
  = Returns tt ->
  w (recipe_call st (VideoInfo.title vi)
       (join (lit " ") (map Snippet.text captions))) = Returns (Some v) ->
  BaseRecipe.validate v = Some b ->
  run w (main VE st)
  = ([Called (transcript_call st (Settings.video_id st));
      Called (video_info_call (Settings.video_id st));
      client_built st;
      Called (recipe_call st (VideoInfo.title vi)
                (join (lit " ") (map Snippet.text captions)));
      Printed (Recipe.model_dump_json (assembled b vi))],
     Returns tt)
  /\ contains
       (json_member (lit "name") (json_str (BaseRecipe.name b)))
       (Recipe.model_dump_json (assembled b vi)) = true
  /\ contains
       (json_member (lit "image")
          (json_str (text_or_empty (get info (lit "thumbnail")))))
       (Recipe.model_dump_json (assembled b vi)) = true
  /\ contains
       (json_member (lit "author")
          (json_str (text_or_empty (get info (lit "uploader")))))
       (Recipe.model_dump_json (assembled b vi)) = true.
Proof.
  intros Ht Hv Hk Hc Hr Hb.
  split.
  { rewrite run_main. cbv zeta. rewrite Ht, Hv, Hk, Hc, Hr, Hb.
    reflexivity. }
  destruct (@video_info_of_kwargs info vi Hk) as (_ & <- & <-).
  repeat split; apply contains_json_object; simpl; tauto.
Qed.

Lemma main_success_run_witness :
  OpenAI_init sample_world (Settings.openai_base_url sample_settings)
    (Settings.openai_api_key sample_settings) = Returns tt
  /\ printed (trace sample_world (main sample_VE sample_settings))
     = [Recipe.model_dump_json
          (assembled (sample_base_recipe (lit "side dish"))
             sample_video_info)]
  /\ contains (json_member (lit "author") (json_str (lit "ChefX")))
       (Recipe.model_dump_json
          (assembled (sample_base_recipe (lit "side dish"))
             sample_video_info)) = true.
Proof.
  pose proof (@main_success_run sample_VE sample_settings sample_world
                sample_captions sample_info sample_video_info
                (sample_output (lit "side dish"))
                (sample_base_recipe (lit "side dish"))
                eq_refl eq_refl eq_refl eq_refl eq_refl eq_refl)
    as (E & _ & _ & Ha).
  split; [reflexivity|].
  split; [unfold trace; rewrite E; reflexivity|exact Ha].
Defined.

(** X4. The client is built before the [try]: what its constructor raises
    leaves [extract_recipe], with no call made and nothing printed.  Once
    the client is built, [extract_recipe] makes one call and does not raise:
    it returns the recipe when the output of the model passes validation, and
    [None] when the call raises, when there is no output and when the output
    is rejected; it prints an error in the first and the last of these cases
    only. *)
Theorem extract_recipe_result (VE : str -> pyval -> exn) (st : Settings.t)
    (w : world) (title transcript : str) :
  match OpenAI_init w (Settings.openai_base_url st)
          (Settings.openai_api_key st) with
  | Raises e =>
      run w (extract_recipe VE st title transcript)
      = ([client_built st], Raises e)
  | Returns _ =>
      result w (extract_recipe VE st title transcript)
      = Returns match w (recipe_call st title transcript) with
                | Returns (Some v) => BaseRecipe.validate v
                | _ => None
                end
      /\ calls (trace w (extract_recipe VE st title transcript))
         = [recipe_call st title transcript]
      /\ printed (trace w (extract_recipe VE st title transcript))
         = match w (recipe_call st title transcript) with
           | Raises e => [lit "Error extracting recipe: " ++ str_of_exn e]
           | Returns None => []
           | Returns (Some v) =>
               match BaseRecipe.validate v with
               | Some _ => []
               | None => [lit "Error extracting recipe: "
                          ++ str_of_exn (VE (lit "BaseRecipe") v)]
               end
           end
  end.
Proof.
  unfold result, trace. rewrite run_extract_recipe.
  destruct (OpenAI_init w _ _) as [[]|e0]; [|reflexivity].
  destruct (w (recipe_call _ _ _)) as [[v|]|e];
    try destruct (BaseRecipe.validate v); simpl; auto.
Qed.

(** X5. When captions and video information are there and [extract_recipe]
    returns [None], what [main] prints is what the extractor printed, its
    error if any, and then "Failed to extract recipe": no recipe, and at
    most two calls of [print]. *)
Theorem extraction_failure_stops_main (VE : str -> pyval -> exn)
    (st : Settings.t) (w : world) (captions : list Snippet.t)
    (vi : VideoInfo.t) :
  w (transcript_call st (Settings.video_id st)) = Returns captions ->
  result w (get_video_info VE (Settings.video_id st)) = Returns (Some vi) ->
  result w (extract_recipe VE st (VideoInfo.title vi)
              (join (lit " ") (map Snippet.text captions)))
  = Returns None ->
  printed (trace w (main VE st))
  = printed (trace w (extract_recipe VE st (VideoInfo.title vi)
                        (join (lit " ") (map Snippet.text captions))))
    ++ [lit "Failed to extract recipe"]
  /\ (List.length (printed (trace w (main VE st))) <= 2)%nat.
Proof.
  unfold result, trace.
  rewrite run_main, run_get_video_info, run_extract_recipe. cbv zeta.
  intros Ht Hv Hr. rewrite Ht.
  destruct (w (video_info_call _)) as [[info|]|e]; try discriminate Hv.
  destruct (VideoInfo.validate _) as [vi'|]; [|discriminate Hv].
  injection Hv as ->.
  destruct (OpenAI_init w _ _) as [[]|e0]; [|discriminate Hr].
  destruct (w (recipe_call _ _ _)) as [[v|]|e]; simpl; auto.
  destruct (BaseRecipe.validate v); [discriminate Hr|]. simpl. auto.
Qed.

Lemma extraction_failure_stops_main_witness :
  printed (trace article_world (main sample_VE sample_settings))
  = [lit "Error extracting recipe: validation error for BaseRecipe";
     lit "Failed to extract recipe"].
Proof.
  rewrite (proj1 (@extraction_failure_stops_main sample_VE sample_settings
                    article_world sample_captions sample_video_info
                    eq_refl eq_refl eq_refl)).
  reflexivity.
Defined.

Ltac differ H :=
  apply (f_equal (fun s : str => (List.length s, hd 0%N s))) in H;
  vm_compute in H; discriminate H.

(** X6. The last line of a run tells the stage that failed: it is the
    transcript message exactly when the caption call raised, the
    video-information message exactly when the captions came and
    [get_video_info] returned [None], and the extraction message exactly when
    both came and [extract_recipe] returned [None]. *)
Theorem failure_message_names_the_stage (VE : str -> pyval -> exn)
    (st : Settings.t) (w : world) :
  let vid := Settings.video_id st in
  let final := last (printed (trace w (main VE st))) [] in
  (final = lit "Failed to retrieve transcript."
   <-> exists e, w (transcript_call st vid) = Raises e)
  /\ (final = lit "Failed to retrieve video information."
      <-> exists captions,
            w (transcript_call st vid) = Returns captions
            /\ result w (get_video_info VE vid) = Returns None)
  /\ (final = lit "Failed to extract recipe"
      <-> exists captions vi,
            w (transcript_call st vid) = Returns captions
            /\ result w (get_video_info VE vid) = Returns (Some vi)
            /\ result w (extract_recipe VE st (VideoInfo.title vi)
                           (join (lit " ") (map Snippet.text captions)))
               = Returns None).
Proof.
  cbv zeta. unfold result, trace.
  rewrite run_main, run_get_video_info. cbv zeta.
  destruct (w (transcript_call _ _)) as [captions|e].
  2:{ repeat split; intros H;
        try solve [eexists; reflexivity];
        try solve [vm_compute in H; discriminate H];
        try solve [destruct H as (? & H & _); discriminate H];
        try solve [destruct H as (? & ? & H & _); discriminate H]. }
  destruct (w (video_info_call _)) as [[info|]|e].
  2:{ repeat split; intros H;
        try solve [eexists; split; reflexivity];
        try solve [vm_compute in H; discriminate H];
        try solve [destruct H as (? & H); discriminate H];
        try solve [destruct H as (? & ? & _ & H & _); discriminate H]. }
  2:{ repeat split; intros H;
        try solve [eexists; split; reflexivity];
        try solve [vm_compute in H; discriminate H];
        try solve [destruct H as (? & H); discriminate H];
        try solve [destruct H as (? & ? & _ & H & _); discriminate H]. }
  destruct (VideoInfo.validate _) as [vi|].
  2:{ repeat split; intros H;
        try solve [eexists; split; reflexivity];
        try solve [vm_compute in H; discriminate H];
        try solve [destruct H as (? & H); discriminate H];
        try solve [destruct H as (? & ? & _ & H & _); discriminate H]. }
  split; [|split].
  - split; [|intros (? & H); discriminate H].
    destruct (OpenAI_init w _ _) as [[]|e0];
      [|simpl; intros H; discriminate H].
    destruct (w (recipe_call _ _ _)) as [[v|]|e];
      try destruct (BaseRecipe.validate v);
      simpl; intros H; differ H.
  - split; [|intros (? & _ & H); discriminate H].
    destruct (OpenAI_init w _ _) as [[]|e0];
      [|simpl; intros H; discriminate H].
    destruct (w (recipe_call _ _ _)) as [[v|]|e];
      try destruct (BaseRecipe.validate v);
      simpl; intros H; differ H.
  - split.
    + intros H. exists captions, vi. split; [reflexivity|].
      split; [reflexivity|]. rewrite run_extract_recipe.
      destruct (OpenAI_init w _ _) as [[]|e0];
        [|simpl in H; discriminate H].
      destruct (w (recipe_call _ _ _)) as [[v|]|e];
        try destruct (BaseRecipe.validate v); try reflexivity.
      simpl in H. differ H.
    + intros (captions' & vi' & Hc & Hv & Hr).
      injection Hc as <-. injection Hv as <-.
      rewrite run_extract_recipe in Hr.
      destruct (OpenAI_init w _ _) as [[]|e0]; [|discriminate Hr].
      destruct (w (recipe_call _ _ _)) as [[v|]|e];
        try destruct (BaseRecipe.validate v); try reflexivity.
      discriminate Hr.
Qed.

(** X7. What validation accepts as a [BaseRecipe] has the two literals in
    [context] and [type]; each of its instructions is a step tagged
    "HowToStep" or a section tagged "HowToSection", and the items of a
    section are steps tagged "HowToStep". *)
Theorem accepted_base_recipe_is_tagged (v : pyval) (b : BaseRecipe.t) :
  BaseRecipe.validate v = Some b ->
  BaseRecipe.context b = lit "https://schema.org"
  /\ BaseRecipe.type b = lit "Recipe"
  /\ Forall
       (fun i =>
          match i with
          | Step s => HowToStep.type s = lit "HowToStep"
          | Section_ c =>
              HowToSection.type c = lit "HowToSection"
              /\ Forall (fun s => HowToStep.type s = lit "HowToStep")
                   (HowToSection.itemListElement c)
          end)
       (BaseRecipe.recipeInstructions b).
Proof.
  intros H. apply BaseRecipe_validate_well_typed in H.
  unfold BaseRecipe.well_typed in H.
  apply andb_true_iff in H as [H Hi]. apply andb_true_iff in H as [Hc Ht].
  apply str_eqb_eq in Hc, Ht. repeat split; try assumption.
  apply Forall_forall. intros i Hin.
  rewrite forallb_forall in Hi. specialize (Hi i Hin).
  destruct i as [s|c]; simpl in Hi.
  - now apply str_eqb_eq.
  - unfold HowToSection.well_typed in Hi.
    apply andb_true_iff in Hi as [Hty Hitems]. split.
    + now apply str_eqb_eq.
    + apply Forall_forall. intros s Hs.
      rewrite forallb_forall in Hitems. apply str_eqb_eq.
      exact (Hitems s Hs).
Qed.

Lemma accepted_base_recipe_is_tagged_witness :
  BaseRecipe.validate (sample_output (lit "brunch"))
  = Some (sample_base_recipe (lit "brunch"))
  /\ BaseRecipe.type (sample_base_recipe (lit "brunch")) = lit "Recipe".
Proof.
  split; [reflexivity|].
  exact (proj1 (proj2 (@accepted_base_recipe_is_tagged
                         (sample_output (lit "brunch"))
                         (sample_base_recipe (lit "brunch")) eq_refl))).
Defined.

Lemma literal_other (value : str) (d : dict) (k : str) (x : pyval) :
  get d k = Some x -> x <> PStr value -> literal value d k = None.
Proof.
  unfold literal. intros -> Hx.
  destruct x as [| | |s| |]; try reflexivity.
  destruct (str_eqb s value) eqn:E; [|reflexivity].
  apply str_eqb_eq in E. subst. congruence.
Qed.

(** X8. A value that spells [@context] or [@type] otherwise than the literal
    of the model is rejected. *)
Theorem wrong_literal_is_rejected (d : dict) (x : pyval) :
  (get d (lit "@context") = Some x /\ x <> PStr (lit "https://schema.org"))
  \/ (get d (lit "@type") = Some x /\ x <> PStr (lit "Recipe")) ->
  BaseRecipe.validate (PDict d) = None.
Proof.
  intros [[Hg Hx]|[Hg Hx]]; unfold BaseRecipe.validate.
  - now rewrite (@literal_other _ _ _ _ Hg Hx).
  - rewrite (@literal_other _ _ _ _ Hg Hx).
    now destruct (literal _ d (lit "@context")).
Qed.

Lemma wrong_literal_is_rejected_witness :
  get article_fields (lit "@type") = Some (PStr (lit "Article"))
  /\ BaseRecipe.validate (PDict article_fields) = None.
Proof.
  split; [reflexivity|].
  apply (@wrong_literal_is_rejected article_fields (PStr (lit "Article"))).
  right. split; [reflexivity|discriminate].
Defined.

(** X9. A value that lacks one of the nine fields without a default is
    rejected, and so is every value that is not an object. *)
Theorem missing_field_is_rejected (v : pyval) :
  (forall d, v <> PDict d)
  \/ (exists d k, v = PDict d /\ In k required_keys /\ get d k = None) ->
  BaseRecipe.validate v = None.
Proof.
  intros [H|(d & k & -> & Hk & Hg)].
  - destruct v; try reflexivity. now destruct (H d).
  - unfold BaseRecipe.validate, required.
    destruct (literal _ d (lit "@context")); [|reflexivity].
    destruct (literal _ d (lit "@type")); [|reflexivity].
    simpl in Hk.
    repeat (destruct Hk as [<-|Hk];
            [rewrite Hg; cbn iota;
             repeat match goal with
                    | |- match ?x with _ => _ end = None =>
                        destruct x; cbn iota beta; try reflexivity
                    end; reflexivity|]).
    destruct Hk.
Qed.

Lemma missing_field_is_rejected_witness :
  get short_fields (lit "cookTime") = None
  /\ BaseRecipe.validate (PDict short_fields) = None.
Proof.
  split; [reflexivity|].
  apply (@missing_field_is_rejected (PDict short_fields)). right.
  exists short_fields, (lit "cookTime").
  split; [reflexivity|]. split; [simpl; tauto|reflexivity].
Defined.

Lemma split_length (sep : N) (s : str) :
  List.length (split sep s) = S (count_occ N.eq_dec s sep).
Proof.
  induction s as [|c s IH]; [reflexivity|].
  simpl split. destruct (c =? sep)%N eqn:E.
  - apply N.eqb_eq in E. subst c.
    rewrite count_occ_cons_eq by reflexivity. simpl. now rewrite IH.
  - apply N.eqb_neq in E. rewrite count_occ_cons_neq by exact E.
    rewrite <- IH. now destruct (split sep s).
Qed.

(** X10. The preferred-languages list has one element more than the setting
    has commas, so at least one; no element holds a comma, and none starts or
    ends with whitespace. *)
Theorem preferred_languages_list_shape (st : Settings.t) :
  List.length (Settings.preferred_languages_list st)
  = S (commas (Settings.preferred_languages st))
  /\ Forall
       (fun lang =>
          ~ In 44%N lang
          /\ starts_clean lang = true /\ starts_clean (rev lang) = true)
       (Settings.preferred_languages_list st).
Proof.
  unfold Settings.preferred_languages_list, commas. split.
  - now rewrite length_map, split_length.
  - apply Forall_forall. intros lang Hin.
    apply in_map_iff in Hin as (piece & <- & Hp).
    pose proof (split_no_sep 44 (Settings.preferred_languages st)) as Hs.
    rewrite Forall_forall in Hs. specialize (Hs piece Hp).
    destruct (strip_spec piece) as (l & r & E & _ & _ & Hh & Ht).
    repeat split; try assumption.
    intros Hc. apply Hs. rewrite E.
    apply in_or_app. right. apply in_or_app. now left.
Qed.

(** X11. [get_transcript] returns [None] exactly when the caption call
    raises, and prints nothing exactly when the call returns; no exception
    leaves it. *)
Theorem get_transcript_none_iff_raises (st : Settings.t) (w : world)
    (vid : str) :
  (result w (get_transcript st vid) = Returns None
   <-> exists e, w (transcript_call st vid) = Raises e)
  /\ (printed (trace w (get_transcript st vid)) = []
      <-> exists captions, w (transcript_call st vid) = Returns captions)
  /\ exists o, result w (get_transcript st vid) = Returns o.
Proof.
  unfold result, trace. rewrite run_get_transcript.
  destruct (w (transcript_call st vid)) as [captions|e]; simpl.
  - repeat split; try discriminate; eauto.
    intros (e & H). discriminate H.
  - repeat split; try discriminate; eauto.
    intros (c & H). discriminate H.
Qed.

(** X12. When the info dict holds, under [title], [uploader] or [thumbnail],
    a value that is true but no text, the [VideoInfo] constructor fails
    inside the [try]: [get_video_info] prints the error and returns [None]. *)
Theorem non_text_field_is_caught (VE : str -> pyval -> exn) (w : world)
    (vid : str) (info : dict) (k : str) (x : pyval) :
  w (video_info_call vid) = Returns (Some info) ->
  In k [lit "title"; lit "uploader"; lit "thumbnail"] ->
  get info k = Some x ->
  truthy x = true ->
  as_str x = None ->
  run w (get_video_info VE vid)
  = ([Called (video_info_call vid);
      Printed (lit "Error fetching video info: "
               ++ str_of_exn (VE (lit "VideoInfo")
                                (PDict (video_info_kwargs info))))],
     Returns None).
Proof.
  intros Hw Hk Hg Ht Hs. rewrite run_get_video_info, Hw.
  assert (E : as_str (get_or info k (PStr [])) = None).
  { unfold get_or. now rewrite Hg, Ht. }
  assert (Hv : VideoInfo.validate (video_info_kwargs info) = None).
  { rewrite VideoInfo_validate_kwargs.
    destruct Hk as [<-|[<-|[<-|[]]]]; rewrite E.
    - reflexivity.
    - now destruct (as_str (get_or info (lit "title") _)).
    - destruct (as_str (get_or info (lit "title") _));
        [|reflexivity].
      now destruct (as_str (get_or info (lit "uploader") _)). }
  now rewrite Hv.
Qed.

Lemma non_text_field_is_caught_witness :
  get numeric_title_info (lit "title") = Some (PInt 42)
  /\ result numeric_title_world (get_video_info sample_VE (lit "abc123"))
     = Returns None.
Proof.
  split; [reflexivity|]. unfold result.
  rewrite (@non_text_field_is_caught sample_VE numeric_title_world
             (lit "abc123") numeric_title_info (lit "title") (PInt 42)
             eq_refl (or_introl eq_refl) eq_refl eq_refl eq_refl).
  reflexivity.
Defined.

(** X13. Once the caption call has returned, whatever it returned and also
    when it returned no entry, the next thing [main] does is the metadata
    call. *)
Theorem captions_returned_main_goes_on (VE : str -> pyval -> exn)
    (st : Settings.t) (w : world) (captions : list Snippet.t) :
  w (transcript_call st (Settings.video_id st)) = Returns captions ->
  exists rest,
    trace w (main VE st)
    = Called (transcript_call st (Settings.video_id st))
      :: Called (video_info_call (Settings.video_id st)) :: rest.
Proof.
  intros Ht. unfold trace. rewrite run_main. cbv zeta. rewrite Ht.
  destruct (w (video_info_call _)) as [[info|]|e]; try (simpl; eauto).
  destruct (VideoInfo.validate _) as [vi|]; [|simpl; eauto].
  destruct (OpenAI_init w _ _) as [[]|e0]; [|simpl; eauto].
  destruct (w (recipe_call _ _ _)) as [[v|]|e]; try (simpl; eauto).
  destruct (BaseRecipe.validate v); simpl; eauto.
Qed.

Lemma captions_returned_main_goes_on_witness :
  no_captions_world
    (transcript_call sample_settings (Settings.video_id sample_settings))
  = Returns []
  /\ exists rest,
       trace no_captions_world (main sample_VE sample_settings)
       = Called (transcript_call sample_settings
                   (Settings.video_id sample_settings))
         :: Called (video_info_call (Settings.video_id sample_settings))
         :: rest.
Proof.
  split; [reflexivity|].
  exact (@captions_returned_main_goes_on sample_VE sample_settings
           no_captions_world [] eq_refl).
Defined.

(** X14. When captions and a usable info dict are there, a missing title does
    not stop the run: if the client of the language model can be built, the
    model is asked about the title the dict holds, about the empty title
    when the dict holds none, and about the captions joined by spaces; if the
    constructor raises, the model is not called. *)
Theorem model_is_asked_about_title_and_captions
    (VE : str -> pyval -> exn) (st : Settings.t) (w : world)
    (captions : list Snippet.t) (info : dict) (vi : VideoInfo.t) :
  w (transcript_call st (Settings.video_id st)) = Returns captions ->
  w (video_info_call (Settings.video_id st)) = Returns (Some info) ->
  VideoInfo.validate (video_info_kwargs info) = Some vi ->
  calls (trace w (main VE st))
  = match OpenAI_init w (Settings.openai_base_url st)
            (Settings.openai_api_key st) with
    | Returns _ =>
        [transcript_call st (Settings.video_id st);
         video_info_call (Settings.video_id st);
         recipe_call st (text_or_empty (get info (lit "title")))
           (spec_flatten (map Snippet.text captions))]
    | Raises _ =>
        [transcript_call st (Settings.video_id st);
         video_info_call (Settings.video_id st)]
    end.
Proof.
  intros Ht Hv Hk. unfold trace. rewrite run_main. cbv zeta.
  rewrite Ht, Hv, Hk.
  destruct (@video_info_of_kwargs info vi Hk) as (<- & _).
  rewrite <- spec_flatten_join.
  destruct (OpenAI_init w _ _) as [[]|e0]; [|reflexivity].
  destruct (w (recipe_call _ _ _)) as [[v|]|e]; try reflexivity.
  destruct (BaseRecipe.validate v); reflexivity.
Qed.

Lemma model_is_asked_about_title_and_captions_witness :
  get bare_info (lit "title") = None
  /\ calls (trace bare_metadata_world (main sample_VE sample_settings))
     = [transcript_call sample_settings (lit "abc123");
        video_info_call (lit "abc123");
        recipe_call sample_settings []
          (lit "First, chop the onions. Then fry until golden.")]
  /\ calls (trace no_client_world (main sample_VE sample_settings))
     = [transcript_call sample_settings (lit "abc123");
        video_info_call (lit "abc123")].
Proof.
  split; [reflexivity|]. split.
  - exact (@model_is_asked_about_title_and_captions sample_VE
             sample_settings bare_metadata_world sample_captions bare_info
             {| VideoInfo.title := []; VideoInfo.author := [];
                VideoInfo.thumbnail_url := [] |}
             eq_refl eq_refl eq_refl).
  - exact (@model_is_asked_about_title_and_captions sample_VE
             sample_settings no_client_world sample_captions sample_info
             sample_video_info eq_refl eq_refl eq_refl).
Defined.

Lemma no_c0_control_app (a b : str) :
  no_c0_control (a ++ b) = no_c0_control a && no_c0_control b.
Proof. apply forallb_app. Qed.

Lemma no_c0_control_hexdigit (n : N) : (32 <=? hexdigit n)%N = true.
Proof.
  apply N.leb_le. unfold hexdigit.
  destruct (n <? 10)%N.
  - apply N.le_trans with 48%N; [discriminate|apply N.le_add_r].
  - apply N.le_trans with 87%N; [discriminate|apply N.le_add_r].
Qed.

Lemma no_c0_control_escape (c : N) : no_c0_control (json_escape_char c) = true.
Proof.
  unfold json_escape_char.
  repeat match goal with
         | |- context [if (c =? ?k)%N then _ else _] =>
             destruct (c =? k)%N; [reflexivity|]
         end.
  destruct (c <? 32)%N eqn:E.
  - simpl. now rewrite !no_c0_control_hexdigit.
  - simpl. apply N.ltb_ge in E. apply N.leb_le in E. now rewrite E.
Qed.

Lemma no_c0_control_json_str (s : str) : no_c0_control (json_str s) = true.
Proof.
  unfold json_str. rewrite !no_c0_control_app.
  assert (H : no_c0_control (flat_map json_escape_char s) = true).
  { induction s as [|c s IH]; [reflexivity|].
    simpl. now rewrite no_c0_control_app, no_c0_control_escape, IH. }
  now rewrite H.
Qed.

Lemma no_c0_control_join (sep : str) (parts : list str) :
  no_c0_control sep = true ->
  forallb no_c0_control parts = true ->
  no_c0_control (join sep parts) = true.
Proof.
  intros Hs. induction parts as [|p [|q rest] IH]; intros H.
  - reflexivity.
  - simpl in *. now rewrite andb_true_r in H.
  - rewrite join_cons, !no_c0_control_app, Hs.
    simpl in H. apply andb_true_iff in H as [-> H].
    now rewrite IH.
Qed.

Lemma no_c0_control_json_list {A : Type} (f : A -> str) (l : list A) :
  (forall a, no_c0_control (f a) = true) ->
  no_c0_control (json_list f l) = true.
Proof.
  intros H. unfold json_list. rewrite !no_c0_control_app.
  rewrite no_c0_control_join; [reflexivity|reflexivity|].
  rewrite forallb_forall. intros x Hx.
  apply in_map_iff in Hx as (a & <- & _). apply H.
Qed.

Lemma no_c0_control_json_member (k v : str) :
  no_c0_control v = true -> no_c0_control (json_member k v) = true.
Proof.
  intros H. unfold json_member.
  now rewrite !no_c0_control_app, no_c0_control_json_str, H.
Qed.

Lemma no_c0_control_json_object (members : list str) :
  forallb no_c0_control members = true ->
  no_c0_control (json_object members) = true.
Proof.
  intros H. unfold json_object. rewrite !no_c0_control_app.
  now rewrite no_c0_control_join.
Qed.

Lemma no_c0_control_step (s : HowToStep.t) :
  no_c0_control (HowToStep.model_dump_json s) = true.
Proof.
  unfold HowToStep.model_dump_json. apply no_c0_control_json_object.
  cbn [forallb]. now rewrite !no_c0_control_json_member by apply no_c0_control_json_str.
Qed.

Lemma no_c0_control_howto (i : howto) :
  no_c0_control (HowTo.model_dump_json i) = true.
Proof.
  destruct i as [s|c]; cbn [HowTo.model_dump_json];
    [apply no_c0_control_step|].
  unfold HowToSection.model_dump_json. apply no_c0_control_json_object.
  cbn [forallb].
  rewrite (no_c0_control_json_member (lit "itemListElement"))
    by apply no_c0_control_json_list, no_c0_control_step.
  rewrite !no_c0_control_json_member by apply no_c0_control_json_str.
  reflexivity.
Qed.

(** X15. The JSON text of a recipe holds no code point below U+0020,
    whatever the texts of the recipe hold: the C0 controls are escaped, so
    the text has no raw line feed, carriage return or tab.  (DEL and the
    code points from U+0080 on are written as they are.) *)
Theorem recipe_json_has_no_c0_control (r : Recipe.t) :
  no_c0_control (Recipe.model_dump_json r) = true
  /\ ~ In 10%N (Recipe.model_dump_json r)
  /\ ~ In 13%N (Recipe.model_dump_json r)
  /\ ~ In 9%N (Recipe.model_dump_json r).
Proof.
  assert (H : no_c0_control (Recipe.model_dump_json r) = true).
  { unfold Recipe.model_dump_json. apply no_c0_control_json_object.
    cbn [forallb].
    rewrite (no_c0_control_json_member (lit "recipeIngredient"))
      by apply no_c0_control_json_list, no_c0_control_json_str.
    rewrite (no_c0_control_json_member (lit "recipeInstructions"))
      by apply no_c0_control_json_list, no_c0_control_howto.
    rewrite !no_c0_control_json_member by apply no_c0_control_json_str.
    reflexivity. }
  split; [exact H|].
  unfold no_c0_control in H. rewrite forallb_forall in H.
  repeat split; intros Hin; specialize (H _ Hin); discriminate H.
Qed.
